(** * ros_gym: command confirmation, estimator barrier and AirSim handler

    A shallow embedding of
    - [robot_envs/mavros_uav_robot_env.py]: [_set_service_request], its
      wrappers [_set_mode_request] and [_set_arming_request], and
      [_reset_pose_estimator];
    - [ros_gym/gym_airsim/airsim_handler.py]: the [AirsimHandler] methods.

    Python code runs in a small state-and-exception monad that also records
    the calls a method makes to its environment (rospy, the service proxies,
    the AirSim client), so that statements such as "the service is not
    invoked" or "the predicate is not polled again" are statements about the
    recorded trace. *)

From Stdlib Require Import ZArith List String Bool Lia.
From Stdlib Require Import Floats.
From Stdlib Require Uint63.
Import ListNotations.
Local Open Scope Z_scope.
Set Warnings "-inexact-float".

(** ** Python outcomes and the program monad *)

Module Py.

(** The exceptions the two files can meet. [ServiceException] is
    [rospy.ServiceException]; [BaseExc] stands for what [except Exception]
    does not catch ([KeyboardInterrupt], [SystemExit]). *)
Inductive Exn : Type :=
| ServiceException
| AttributeError
| PyException (name : string)
| BaseExc (name : string).

Definition is_Exception (e : Exn) : bool :=
  match e with
  | BaseExc _ => false
  | _ => true
  end.

Definition is_ServiceException (e : Exn) : bool :=
  match e with
  | ServiceException => true
  | _ => false
  end.

(** What a call does: it returns a value, raises, or is still running when
    the fuel given to its loops is used up. *)
Inductive Outcome (A : Type) : Type :=
| Returns (a : A)
| Raises (e : Exn)
| Spins.

Arguments Returns {A} a.
Arguments Raises {A} e.
Arguments Spins {A}.

Section Prog.
Context {S E : Type}.

(** A program over state [S] recording events [E]. The state after a raise
    is kept: Python does not roll back. *)
Definition Prog (A : Type) : Type := S -> Outcome A * S * list E.

Definition ret {A} (a : A) : Prog A := fun s => (Returns a, s, []).

Definition raise {A} (e : Exn) : Prog A := fun s => (Raises e, s, []).

Definition spin {A} : Prog A := fun s => (Spins, s, []).

Definition bind {A B} (m : Prog A) (k : A -> Prog B) : Prog B :=
  fun s =>
    match m s with
    | (Returns a, s1, t1) =>
        let '(r, s2, t2) := k a s1 in (r, s2, t1 ++ t2)
    | (Raises e, s1, t1) => (Raises e, s1, t1)
    | (Spins, s1, t1) => (Spins, s1, t1)
    end.

Definition emit (e : E) : Prog unit := fun s => (Returns tt, s, [e]).

(** An environment call that cannot raise. *)
Definition ask {A} (f : S -> A * S) : Prog A :=
  fun s => let '(a, s1) := f s in (Returns a, s1, []).

(** An environment call that can raise. *)
Definition act {A} (f : S -> Outcome A * S) : Prog A :=
  fun s => let '(r, s1) := f s in (r, s1, []).

(** [try: body except <catches>: handler]. *)
Definition try_except {A} (body : Prog A) (catches : Exn -> bool)
    (handler : Prog A) : Prog A :=
  fun s =>
    match body s with
    | (Raises e, s1, t1) =>
        if catches e
        then let '(r, s2, t2) := handler s1 in (r, s2, t1 ++ t2)
        else (Raises e, s1, t1)
    | other => other
    end.

Definition gets {A} (f : S -> A) : Prog A := fun s => (Returns (f s), s, []).

Definition modify (f : S -> S) : Prog unit := fun s => (Returns tt, f s, []).

Definition outcome {A} (r : Outcome A * S * list E) : Outcome A := fst (fst r).
Definition final {A} (r : Outcome A * S * list E) : S := snd (fst r).
Definition trace {A} (r : Outcome A * S * list E) : list E := snd r.

End Prog.

Arguments Prog : clear implicits.

Module Notations.
Notation "x <- m ;; k" := (bind m (fun x => k))
  (at level 61, m at next level, right associativity).
Notation "m ;;; k" := (bind m (fun _ => k))
  (at level 61, right associativity).
End Notations.

End Py.

(** ** The MAVROS robot environment *)

Module Mavros.
Import Py Py.Notations.

(** [rospy.Time]: seconds and nanoseconds. *)
Record Time : Type := { secs : Z; nsecs : Z }.

Definition to_nsec (t : Time) : Z := secs t * 1000000000 + nsecs t.

(** [==] on time values compares both fields. *)
Definition Time_eqb (a b : Time) : bool :=
  (secs a =? secs b) && (nsecs a =? nsecs b).

(** [<] on time values compares the nanosecond totals. *)
Definition Time_ltb (a b : Time) : bool := to_nsec a <? to_nsec b.

(** [float(n)] for an integer below [2^63] in absolute value. *)
Definition float_of_Z (z : Z) : float :=
  if z <? 0 then (- of_uint63 (Uint63.of_Z (- z)))%float
  else of_uint63 (Uint63.of_Z z).

(** [(a - b).to_sec()] in binary64. The difference of two times is a
    duration with its nanoseconds brought into [0, 10^9) and its seconds
    adjusted; [to_sec] is [float(secs) + float(nsecs) / 1e9]. *)
Definition elapsed_sec (a b : Time) : float :=
  (float_of_Z ((to_nsec a - to_nsec b) / 1000000000)
   + float_of_Z ((to_nsec a - to_nsec b) mod 1000000000) / 1e9)%float.

(** A binary64 value that is not below zero: a zero, a positive finite
    number or plus infinity. *)
Definition not_below_zero (x : spec_float) : Prop :=
  match x with
  | S754_zero _ => True
  | S754_finite s _ _ => s = false
  | S754_infinity s => s = false
  | S754_nan => False
  end.

(** The fields of [mavros_msgs/State] the file reads. *)
Record State : Type := { connected : bool; armed : bool; mode : string }.

(** The fields of [mavros_msgs/EstimatorStatus] the file reads;
    [stamp] is [header.stamp]. *)
Record EstimatorStatus : Type := {
  stamp : Time;
  pred_hor_position_rel : bool;
  pred_hor_position_abs : bool
}.

Inductive LogLevel : Type := LInfo | LWarn | LFatal.

(** What a call of [_set_service_request] does to its environment, in
    order. *)
Inductive Event : Type :=
| ev_now
| ev_cond
| ev_srv
| ev_is_shutdown
| ev_log (level : LogLevel) (fmt name : string).

(** The environment of the main thread: rospy, the cached telemetry
    attributes and the service proxies. Every call returns the next world:
    between two calls the clock advances, subscriber callbacks may replace
    the cached messages and a shutdown may be requested. [self_state] is the
    attribute [self._state], [None] while it is unset. The proxies return
    the truth value of the response, which is what the caller tests. *)
Class Rospy (W : Type) : Type := {
  now : W -> Time * W;
  is_shutdown : W -> bool * W;
  self_state : W -> option State * W;
  set_mode_client : Z * string -> W -> Outcome bool * W;
  arming_client : bool -> W -> Outcome bool * W
}.

(** The response message of [mavros_msgs/SetMode] and of
    [mavros_msgs/CommandBool]. *)
Inductive Response : Type :=
| SetModeResponse (mode_sent : bool)
| CommandBoolResponse (success : bool) (result : Z).

(** The truth value Python gives a response in the [if] of line 114: a
    message
    object has neither [__bool__] nor [__len__], so it is true whatever
    its fields hold. *)
Definition truth_value (r : Response) : bool := true.

(** What a [rospy.ServiceProxy] gives the [if] of line 114 when the
    service call does [r]. *)
Definition proxy_reply (r : Outcome Response) : Outcome bool :=
  match r with
  | Returns response => Returns (truth_value response)
  | Raises e => Raises e
  | Spins => Spins
  end.

Section Requests.
Context {W : Type} {ros : Rospy W}.

Local Abbreviation P := (Prog W Event).

(** The loop of lines 116-120; [fuel] bounds the number of passes. *)
Fixpoint wait_for_updated_state (fuel : nat) (name : string)
    (cond : W -> Outcome bool * W) (start_time : Time) (timeout : float)
    : P bool :=
  match fuel with
  | O => spin
  | S fuel' =>
      c <- (emit ev_cond ;;; act cond) ;;
      if c then ret true
      else
        down <- (emit ev_is_shutdown ;;; ask is_shutdown) ;;
        if down then ret true
        else
          t <- (emit ev_now ;;; ask now) ;;
          if PrimFloat.leb timeout (elapsed_sec t start_time)
          then
            emit (ev_log LFatal
                    "Call to service %s successful but not response..."
                    name) ;;;
            ret false
          else wait_for_updated_state fuel' name cond start_time timeout
  end.

Definition _set_service_request {Req : Type} (fuel : nat) (name : string)
    (cond : W -> Outcome bool * W) (srv : Req -> W -> Outcome bool * W)
    (req : Req) (wait_time timeout : float) : P bool :=
  start_time <- (emit ev_now ;;; ask now) ;;
  c <- (emit ev_cond ;;; act cond) ;;
  if negb c then
    try_except
      (ok <- (emit ev_srv ;;; act (srv req)) ;;
       if ok then
         emit (ev_log LInfo "Service %s request successful!" name) ;;;
         wait_for_updated_state fuel name cond start_time timeout
       else
         emit (ev_log LWarn "Call to service %s failed." name) ;;;
         ret false)
      is_ServiceException
      (emit (ev_log LWarn "Call to service %s failed." name) ;;;
       ret false)
  else
    emit (ev_log LInfo "Service %s condition is already true." name) ;;;
    ret true.

(** [lambda: self._state.mode == mode]: reading an attribute of an unset
    [self._state] raises [AttributeError]. *)
Definition mode_is (m : string) (w : W) : Outcome bool * W :=
  match self_state w with
  | (Some st, w1) => (Returns (String.eqb (mode st) m), w1)
  | (None, w1) => (Raises AttributeError, w1)
  end.

(** [lambda: self._state.armed == arm_req]. *)
Definition armed_is (arm_req : bool) (w : W) : Outcome bool * W :=
  match self_state w with
  | (Some st, w1) => (Returns (Bool.eqb (armed st) arm_req), w1)
  | (None, w1) => (Raises AttributeError, w1)
  end.

Definition _set_mode_request (fuel : nat) (m : string)
    (wait_time timeout : float) : P bool :=
  _set_service_request fuel "/mavros/set_mode" (mode_is m)
    set_mode_client (0, m) wait_time timeout.

Definition _set_arming_request (fuel : nat) (arm_req : bool)
    (wait_time timeout : float) : P bool :=
  _set_service_request fuel "/mavros/cmd/arming" (armed_is arm_req)
    arming_client arm_req wait_time timeout.

End Requests.

(** The default arguments [wait_time=0.05, timeout=5.0]. *)
Definition default_wait_time : float := 0.05%float.
Definition default_timeout : float := 5.0%float.

(** *** [_reset_pose_estimator]

    What one call meets: the attribute [self.pose_est_] (unset when the
    parameter is neither [ekf2] nor [lpe]), the cached message at line 178,
    the two estimator processes, and the cached message at every later read.
    [est_status_at i j] is the message [self._est_status] holds when pass
    [i] of the loop reads the attribute for the [j]-th time ([0] for the
    time stamp of line 185, [1] and [2] for the two flags of line 188): the
    subscriber thread may replace the message between any two reads. *)
Record EstimatorRun : Type := {
  pose_est_ : option string;
  est_status_before : option EstimatorStatus;
  run_process : list string -> Outcome Z;
  est_status_at : nat -> nat -> EstimatorStatus
}.

(** The loop of lines 183-190, from pass [i] on. It has one exit, the
    [break] of line 190; the result is the number of the pass that took
    it. *)
Fixpoint await_valid_estimate (reads : nat -> nat -> EstimatorStatus)
    (time_stamp : Time) (fuel i : nat) : Outcome nat :=
  match fuel with
  | O => Spins
  | S fuel' =>
      if Time_eqb (stamp (reads i 0%nat)) time_stamp
      then await_valid_estimate reads time_stamp fuel' (S i)
      else if pred_hor_position_rel (reads i 1%nat)
      then if pred_hor_position_abs (reads i 2%nat)
           then Returns i
           else await_valid_estimate reads time_stamp fuel' (S i)
      else await_valid_estimate reads time_stamp fuel' (S i)
  end.

Definition px4_lib : string := "/home/sai/ros-ws/melodic/lib/px4/".

(** [Popen(args)] followed by [.wait()]; the exit code is dropped. *)
Definition popen_wait (run : EstimatorRun) (args : list string)
    : Outcome unit :=
  match run_process run args with
  | Returns _ => Returns tt
  | Raises e => Raises e
  | Spins => Spins
  end.

Definition _reset_pose_estimator (fuel : nat) (run : EstimatorRun)
    : Outcome unit :=
  match pose_est_ run with
  | None => Raises AttributeError
  | Some est =>
      let px4_ekf2_path := (px4_lib ++ est)%string in
      match est_status_before run with
      | None => Raises AttributeError
      | Some msg =>
          let time_stamp := stamp msg in
          match popen_wait run [px4_ekf2_path; "stop"%string] with
          | Returns _ =>
              match popen_wait run [px4_ekf2_path; "start"%string] with
              | Returns _ =>
                  match await_valid_estimate (est_status_at run)
                          time_stamp fuel 0%nat with
                  | Returns _ => Returns tt
                  | Raises e => Raises e
                  | Spins => Spins
                  end
              | Raises e => Raises e
              | Spins => Spins
              end
          | Raises e => Raises e
          | Spins => Spins
          end
      end
  end.

(** A run in which the cached message is not replaced during a pass: pass
    [i] sees the sample [samples i] at each of its reads. *)
Definition per_pass (samples : nat -> EstimatorStatus)
    : nat -> nat -> EstimatorStatus :=
  fun i _ => samples i.

(** The sample the exit asks for: a time stamp other than the one read
    before the restart, and both flags set. *)
Definition fresh_and_valid (time_stamp : Time) (s : EstimatorStatus) : bool :=
  negb (Time_eqb (stamp s) time_stamp)
  && pred_hor_position_rel s && pred_hor_position_abs s.

(** The same with "newer" in place of "other". *)
Definition newer_and_valid (time_stamp : Time) (s : EstimatorStatus) : bool :=
  Time_ltb time_stamp (stamp s)
  && pred_hor_position_rel s && pred_hor_position_abs s.

End Mavros.

(** ** The AirSim handler *)

Module Airsim.
Import Py Py.Notations.
Local Open Scope float_scope.

(** [airsim.YawMode]. *)
Record YawMode : Type := { is_rate : bool; yaw_or_rate : float }.

(** Values the client hands back: [None], a boolean, or an object of the
    vendor library (a future, a state snapshot). *)
Inductive PyVal (Obj : Type) : Type :=
| VNone
| VBool (b : bool)
| VObj (o : Obj).

Arguments VNone {Obj}.
Arguments VBool {Obj} b.
Arguments VObj {Obj} o.

(** The methods of [airsim.MultirotorClient] the handler calls, with their
    arguments; [join] is the method of the future a [...Async] call
    returned. *)
Module Client.
Inductive Call (Obj : Type) : Type :=
| reset
| enableApiControl (is_enabled : bool)
| armDisarm (arm : bool)
| simPause (is_paused : bool)
| moveToZAsync (z velocity timeout_sec : float)
| landAsync (timeout_sec : float)
| moveByVelocityAsync (vx vy vz : float) (yaw_mode : YawMode)
    (duration : float)
| join (future : PyVal Obj)
| getMultirotorState.

Arguments reset {Obj}.
Arguments enableApiControl {Obj} is_enabled.
Arguments armDisarm {Obj} arm.
Arguments simPause {Obj} is_paused.
Arguments moveToZAsync {Obj} z velocity timeout_sec.
Arguments landAsync {Obj} timeout_sec.
Arguments moveByVelocityAsync {Obj} vx vy vz yaw_mode duration.
Arguments join {Obj} future.
Arguments getMultirotorState {Obj}.
End Client.

(** The vendor client: each call returns or raises and leaves the client
    (and the simulator behind it) in a new state. *)
Class MultirotorClient (Obj C : Type) : Type := {
  invoke : Client.Call Obj -> C -> Outcome (PyVal Obj) * C
}.

Inductive Event (Obj : Type) : Type :=
| ev_call (c : Client.Call Obj) (r : Outcome (PyVal Obj))
| ev_logerr (msg : string).

Arguments ev_call {Obj} c r.
Arguments ev_logerr {Obj} msg.

(** The attributes of an [AirsimHandler] once [setup] has created the
    client. *)
Record AirsimHandler (Obj C : Type) : Type := {
  _new_state : bool;
  _client : C;
  _multirotor_state : PyVal Obj
}.

Arguments _new_state {Obj C} _.
Arguments _client {Obj C} _.
Arguments _multirotor_state {Obj C} _.

Section Handler.
Context {Obj C : Type} {vendor : MultirotorClient Obj C}.

Local Abbreviation Handler := (AirsimHandler Obj C).
Local Abbreviation P := (Prog Handler (Event Obj)).

Definition set_new_state (b : bool) (h : Handler) : Handler :=
  {| _new_state := b; _client := _client h;
     _multirotor_state := _multirotor_state h |}.

Definition set_client (c : C) (h : Handler) : Handler :=
  {| _new_state := _new_state h; _client := c;
     _multirotor_state := _multirotor_state h |}.

Definition set_multirotor_state (v : PyVal Obj) (h : Handler) : Handler :=
  {| _new_state := _new_state h; _client := _client h;
     _multirotor_state := v |}.

(** [self._client.<call>]. *)
Definition call (c : Client.Call Obj) : P (PyVal Obj) :=
  fun h =>
    let '(r, c1) := invoke c (_client h) in
    (r, set_client c1 h, [ev_call c r]).

Definition reset : P unit :=
  try_except
    (call Client.reset ;;;
     call (Client.enableApiControl true) ;;;
     call (Client.armDisarm false) ;;;
     ret tt)
    is_Exception
    (emit (ev_logerr "Failed to reset simulation.")).

Definition pause : P unit :=
  try_except
    (call (Client.simPause true) ;;; ret tt)
    is_Exception
    (emit (ev_logerr "Failed to pause simulation.")).

Definition unpause : P unit :=
  try_except
    (call (Client.simPause false) ;;;
     modify (set_new_state true))
    is_Exception
    (emit (ev_logerr "Failed to unpause simulation.")).

Definition client_arm (arm_req : bool) : P (PyVal Obj) :=
  call (Client.armDisarm arm_req).

Definition client_takeoff (takeoff_z : float) : P (PyVal Obj) :=
  future <- call (Client.moveToZAsync (- takeoff_z) 1.0 2.0) ;;
  call (Client.join future).

(** [landAsync(timeout_sec=5)]: the integer is passed as the float it
    denotes. *)
Definition client_land : P (PyVal Obj) :=
  future <- call (Client.landAsync 5) ;;
  call (Client.join future).

Definition client_cmd_vel (vel_x vel_y vel_z yaw_rate : float)
    : P (PyVal Obj) :=
  let yaw_cmd := {| is_rate := true; yaw_or_rate := yaw_rate |} in
  future <- call (Client.moveByVelocityAsync vel_x vel_y vel_z yaw_cmd
                    0.005) ;;
  call (Client.join future) ;;;
  ret VNone.

Definition client_state : P (PyVal Obj) :=
  fresh <- gets _new_state ;;
  (if fresh : bool then
     st <- call Client.getMultirotorState ;;
     modify (set_multirotor_state st) ;;;
     modify (set_new_state false)
   else ret tt) ;;;
  gets _multirotor_state.

(** The four commands of the direct backend. *)
Inductive Command : Type :=
| Arm (arm_req : bool)
| Takeoff (takeoff_z : float)
| Land
| CmdVel (vel_x vel_y vel_z yaw_rate : float).

Definition run_command (cmd : Command) : P (PyVal Obj) :=
  match cmd with
  | Arm arm_req => client_arm arm_req
  | Takeoff takeoff_z => client_takeoff takeoff_z
  | Land => client_land
  | CmdVel vx vy vz yaw_rate => client_cmd_vel vx vy vz yaw_rate
  end.

End Handler.

End Airsim.

(** ** Concrete environments

    Small environments on which the models run, used to evaluate the code
    at given inputs. *)

Module Scripted.
Import Py Mavros.

(** A scripted rospy world: the [k]-th call of [rospy.Time.now] answers
    [clock_at k], the [k]-th call of [rospy.is_shutdown] answers
    [shutdown_at k], the [k]-th read of [self._state] finds [state_at k],
    and the two proxies answer [mode_reply] and [arm_reply]. *)
Record Script : Type := {
  n_now : nat;
  n_shutdown : nat;
  n_state : nat;
  clock_at : nat -> Time;
  shutdown_at : nat -> bool;
  state_at : nat -> option State;
  mode_reply : Outcome bool;
  arm_reply : Outcome bool
}.

Definition script_now (w : Script) : Time * Script :=
  (clock_at w (n_now w),
   {| n_now := S (n_now w); n_shutdown := n_shutdown w;
      n_state := n_state w; clock_at := clock_at w;
      shutdown_at := shutdown_at w; state_at := state_at w;
      mode_reply := mode_reply w; arm_reply := arm_reply w |}).

Definition script_is_shutdown (w : Script) : bool * Script :=
  (shutdown_at w (n_shutdown w),
   {| n_now := n_now w; n_shutdown := S (n_shutdown w);
      n_state := n_state w; clock_at := clock_at w;
      shutdown_at := shutdown_at w; state_at := state_at w;
      mode_reply := mode_reply w; arm_reply := arm_reply w |}).

Definition script_self_state (w : Script) : option State * Script :=
  (state_at w (n_state w),
   {| n_now := n_now w; n_shutdown := n_shutdown w;
      n_state := S (n_state w); clock_at := clock_at w;
      shutdown_at := shutdown_at w; state_at := state_at w;
      mode_reply := mode_reply w; arm_reply := arm_reply w |}).

#[export] Instance Script_Rospy : Rospy Script := {|
  now := script_now;
  is_shutdown := script_is_shutdown;
  self_state := script_self_state;
  set_mode_client := fun _ w => (mode_reply w, w);
  arming_client := fun _ w => (arm_reply w, w)
|}.

Definition start_script (clock : nat -> Time) (down : nat -> bool)
    (st : nat -> option State) (mode_r arm_r : Outcome bool) : Script :=
  {| n_now := 0; n_shutdown := 0; n_state := 0; clock_at := clock;
     shutdown_at := down; state_at := st;
     mode_reply := mode_r; arm_reply := arm_r |}.

(** One second per clock reading. *)
Definition slow_clock (k : nat) : Time :=
  {| secs := Z.of_nat k; nsecs := 0 |}.

Definition disarmed : State :=
  {| connected := true; armed := false; mode := "MANUAL" |}.

(** The vehicle stays disarmed, the arming service accepts the request,
    and a shutdown is requested between the first and the second pass of
    the wait loop. *)
Definition shutdown_while_waiting : Script :=
  start_script slow_clock (fun k => Nat.leb 1 k) (fun _ => Some disarmed)
    (Returns true) (Returns true).

(** The vehicle stays disarmed and no shutdown is requested. *)
Definition never_armed : Script :=
  start_script slow_clock (fun _ => false) (fun _ => Some disarmed)
    (Returns true) (Returns true).

(** No state message has arrived yet. *)
Definition no_telemetry : Script :=
  start_script slow_clock (fun _ => false) (fun _ => None)
    (Returns true) (Returns true).

(** The vehicle is already armed. *)
Definition already_armed : Script :=
  start_script slow_clock (fun _ => false)
    (fun _ => Some {| connected := true; armed := true; mode := "MANUAL" |})
    (Returns true) (Returns true).

(** The arming service answers the request with [success = False], and
    the vehicle stays disarmed. *)
Definition arming_refused_by_service : Script :=
  start_script slow_clock (fun _ => false) (fun _ => Some disarmed)
    (Returns true) (proxy_reply (Returns (CommandBoolResponse false 4))).

(** The arming service cannot be reached: the proxy raises
    [rospy.ServiceException]. *)
Definition arming_unreachable : Script :=
  start_script slow_clock (fun _ => false) (fun _ => Some disarmed)
    (Returns true) (Raises ServiceException).

(** Estimator samples. *)
Definition at_sec (s : Z) : Time := {| secs := s; nsecs := 0 |}.

Definition sample (s : Z) (rel abs : bool) : EstimatorStatus :=
  {| stamp := at_sec s; pred_hor_position_rel := rel;
     pred_hor_position_abs := abs |}.

Definition estimator_run (before : EstimatorStatus)
    (reads : nat -> nat -> EstimatorStatus) : EstimatorRun :=
  {| pose_est_ := Some "px4-ekf2"%string;
     est_status_before := Some before;
     run_process := fun _ => Returns 0;
     est_status_at := reads |}.

(** The estimator never reports a valid horizontal position. *)
Definition never_valid (i : nat) : EstimatorStatus :=
  sample (11 + Z.of_nat i) false true.

(** After the restart the estimator stamps its messages with an earlier
    time than the message cached before the restart. *)
Definition clock_went_back (i : nat) : EstimatorStatus := sample 5 true true.

(** Three messages, none of them both fresh and valid, replaced between
    the reads of one pass. *)
Definition mixed_reads (i j : nat) : EstimatorStatus :=
  match j with
  | O => sample 11 false false
  | S O => sample 12 true false
  | _ => sample 13 false true
  end.

End Scripted.

Module SimClient.
Import Py Airsim.

(** A simulator client that counts resets: a state snapshot is the number
    of resets so far. A broken connection makes every call raise. *)
Record Sim : Type := { resets : nat; broken : bool }.

Definition sim_invoke (c : Client.Call nat) (s : Sim)
    : Outcome (PyVal nat) * Sim :=
  if broken s then (Raises (PyException "RPCError"), s)
  else
    match c with
    | Client.reset =>
        (Returns VNone, {| resets := S (resets s); broken := false |})
    | Client.getMultirotorState => (Returns (VObj (resets s)), s)
    | Client.armDisarm _ => (Returns (VBool true), s)
    | Client.moveToZAsync _ _ _ => (Returns (VObj 0%nat), s)
    | Client.landAsync _ => (Returns (VObj 0%nat), s)
    | Client.moveByVelocityAsync _ _ _ _ _ => (Returns (VObj 0%nat), s)
    | _ => (Returns VNone, s)
    end.

#[export] Instance Sim_Client : MultirotorClient nat Sim := {|
  invoke := sim_invoke
|}.

(** A handler whose snapshot was read since the last unpause. *)
Definition cached_handler : AirsimHandler nat Sim :=
  {| _new_state := false;
     _client := {| resets := 0; broken := false |};
     _multirotor_state := VObj 0%nat |}.

(** A handler whose connection to the simulator is broken. *)
Definition broken_handler : AirsimHandler nat Sim :=
  {| _new_state := true;
     _client := {| resets := 0; broken := true |};
     _multirotor_state := VNone |}.

End SimClient.

(** ** The rest of the two files

    The telemetry callbacks and properties, the take-off and landing
    requests, the choice of the estimator executable, and the remaining
    methods of the AirSim handler with the base class
    [SimulationHandler]. *)

Module Telemetry.
Import Py Mavros.

(** The fields of [sensor_msgs/NavSatFix] the file reads. *)
Record NavSatFix : Type := {
  latitude : float;
  longitude : float;
  altitude : float
}.

(** [geometry_msgs/PoseStamped]: position and orientation quaternion. *)
Record PoseStamped : Type := {
  position : float * float * float;
  orientation : float * float * float * float
}.

(** The four attributes the subscriber callbacks assign; [None] while an
    attribute has not been assigned. *)
Record Cache : Type := {
  _state : option State;
  _pose : option PoseStamped;
  _gps : option NavSatFix;
  _est_status : option EstimatorStatus
}.

(** The object before any assignment. *)
Definition unset : Cache :=
  {| _state := None; _pose := None; _gps := None; _est_status := None |}.

Definition _state_cb (msg : State) (self : Cache) : Cache :=
  {| _state := Some msg; _pose := _pose self; _gps := _gps self;
     _est_status := _est_status self |}.

Definition _pose_cb (msg : PoseStamped) (self : Cache) : Cache :=
  {| _state := _state self; _pose := Some msg; _gps := _gps self;
     _est_status := _est_status self |}.

Definition _gps_cb (msg : NavSatFix) (self : Cache) : Cache :=
  {| _state := _state self; _pose := _pose self; _gps := Some msg;
     _est_status := _est_status self |}.

Definition _est_status_cb (msg : EstimatorStatus) (self : Cache) : Cache :=
  {| _state := _state self; _pose := _pose self; _gps := _gps self;
     _est_status := Some msg |}.

(** A message arriving on one of the four topics of
    [_setup_subscribers]. *)
Inductive Notification : Type :=
| on_state (msg : State)
| on_pose (msg : PoseStamped)
| on_gps (msg : NavSatFix)
| on_estimator_status (msg : EstimatorStatus).

(** [_setup_subscribers]: the callback registered for each topic. *)
Definition callback (n : Notification) : Cache -> Cache :=
  match n with
  | on_state msg => _state_cb msg
  | on_pose msg => _pose_cb msg
  | on_gps msg => _gps_cb msg
  | on_estimator_status msg => _est_status_cb msg
  end.

(** The callbacks run one after the other, in the order of arrival. *)
Definition deliver (ns : list Notification) (self : Cache) : Cache :=
  fold_left (fun s n => callback n s) ns self.

(** Reading an attribute that has not been assigned raises
    [AttributeError]. *)
Definition attribute {A} (field : option A) : Outcome A :=
  match field with
  | Some v => Returns v
  | None => Raises AttributeError
  end.

(** The properties [state], [pose] and [gps]. *)
Definition state (self : Cache) : Outcome State := attribute (_state self).
Definition pose (self : Cache) : Outcome PoseStamped :=
  attribute (_pose self).
Definition gps (self : Cache) : Outcome NavSatFix := attribute (_gps self).

(** The four topics of [_setup_subscribers]: [/mavros/state],
    [/mavros/local_position/pose], [/mavros/global_position/raw/fix] and
    [/mavros/estimator_status]. *)
Inductive Topic : Type :=
| mavros_state
| local_position_pose
| global_position_raw_fix
| estimator_status.

Definition topic (n : Notification) : Topic :=
  match n with
  | on_state _ => mavros_state
  | on_pose _ => local_position_pose
  | on_gps _ => global_position_raw_fix
  | on_estimator_status _ => estimator_status
  end.

Definition Topic_eqb (a b : Topic) : bool :=
  match a, b with
  | mavros_state, mavros_state => true
  | local_position_pose, local_position_pose => true
  | global_position_raw_fix, global_position_raw_fix => true
  | estimator_status, estimator_status => true
  | _, _ => false
  end.

(** What the object holds for a topic, read through the property where
    the class has one and through the attribute for the estimator
    status. *)
Definition read (t : Topic) (self : Cache) : Outcome Notification :=
  match t with
  | mavros_state =>
      match state self with
      | Returns msg => Returns (on_state msg)
      | Raises e => Raises e
      | Spins => Spins
      end
  | local_position_pose =>
      match pose self with
      | Returns msg => Returns (on_pose msg)
      | Raises e => Raises e
      | Spins => Spins
      end
  | global_position_raw_fix =>
      match gps self with
      | Returns msg => Returns (on_gps msg)
      | Raises e => Raises e
      | Spins => Spins
      end
  | estimator_status =>
      match attribute (_est_status self) with
      | Returns msg => Returns (on_estimator_status msg)
      | Raises e => Raises e
      | Spins => Spins
      end
  end.

(** No message of [ns] is on topic [t]. *)
Definition none_on (t : Topic) (ns : list Notification) : bool :=
  forallb (fun n => negb (Topic_eqb (topic n) t)) ns.

(** [__init__], lines 29-33: the estimator executable for the parameter
    [mavros_gym/px4-est]; the attribute stays unassigned for any other
    value. *)
Definition select_pose_est (est : string) : option string :=
  if String.eqb est "ekf2" then Some "px4-ekf2"%string
  else if String.eqb est "lpe" then Some "px4-local_position_estimator"%string
  else None.

End Telemetry.

(** *** Take-off and landing requests *)

Module TakeoffLand.
Import Py Py.Notations Mavros Telemetry.

(** The arguments of [mavros_msgs/CommandTOL] as the file passes them:
    [(0, 0, latitude, longitude, altitude)]. *)
Definition TOLRequest : Type := (Z * Z * float * float * float)%type.

(** What the two requests need besides [Rospy]: the attribute [self._gps]
    and the two proxies. *)
Class RospyTOL (W : Type) : Type := {
  self_gps : W -> option NavSatFix * W;
  takeoff_client : TOLRequest -> W -> Outcome bool * W;
  land_client : TOLRequest -> W -> Outcome bool * W
}.

Section Requests.
Context {W : Type} {ros : Rospy W} {tol : RospyTOL W}.

(** [self._gps.<field>]. *)
Definition gps_field (field : NavSatFix -> float) (w : W)
    : Outcome float * W :=
  match self_gps w with
  | (Some msg, w1) => (Returns (field msg), w1)
  | (None, w1) => (Raises AttributeError, w1)
  end.

(** The request tuple is built, with its two reads of [self._gps], before
    [_set_service_request] is entered. *)
Definition _set_takeoff_request (fuel : nat) (takeoff_alt : float)
    (wait_time timeout : float) : Prog W Event bool :=
  lat <- act (gps_field latitude) ;;
  lon <- act (gps_field longitude) ;;
  _set_service_request fuel "/mavros/cmd/takeoff" (mode_is "AUTO.TAKEOFF")
    takeoff_client (0, 0, lat, lon, takeoff_alt) wait_time timeout.

Definition _set_land_request (fuel : nat) (land_alt : float)
    (wait_time timeout : float) : Prog W Event bool :=
  lat <- act (gps_field latitude) ;;
  lon <- act (gps_field longitude) ;;
  _set_service_request fuel "/mavros/cmd/land" (mode_is "AUTO.LAND")
    land_client (0, 0, lat, lon, land_alt) wait_time timeout.

End Requests.

End TakeoffLand.

(** *** The passes of the wait loop *)

Module WaitLoop.
Import Py Mavros.

Section Passes.
Context {W : Type} {ros : Rospy W}.
Variable cond : W -> Outcome bool * W.
Variables (start_time : Time) (timeout : float).

(** The world after the three calls of a pass: the predicate, the shutdown
    flag, the clock. *)
Definition after_pass (w : W) : W :=
  snd (now (snd (is_shutdown (snd (cond w))))).

(** The pass starting in [w] goes round: the predicate is false, no
    shutdown is requested and the clock reading is less than [timeout]
    after [start_time]. *)
Definition goes_round (w : W) : bool :=
  match fst (cond w) with
  | Returns false =>
      negb (fst (is_shutdown (snd (cond w))))
      && negb (PrimFloat.leb timeout
                 (elapsed_sec (fst (now (snd (is_shutdown (snd (cond w))))))
                    start_time))
  | _ => false
  end.

(** The world after [k] passes. *)
Fixpoint after_passes (k : nat) (w : W) : W :=
  match k with
  | O => w
  | S k' => after_passes k' (after_pass w)
  end.

(** The pass starting in [w] runs into the timeout. *)
Definition times_out (w : W) : bool :=
  match fst (cond w) with
  | Returns false =>
      negb (fst (is_shutdown (snd (cond w))))
      && PrimFloat.leb timeout
           (elapsed_sec (fst (now (snd (is_shutdown (snd (cond w))))))
              start_time)
  | _ => false
  end.

End Passes.

(** The world in which the wait loop starts: after the clock reading, the
    first evaluation of the predicate and the service call. *)
Definition loop_entry {W : Type} {ros : Rospy W} {Req : Type}
    (cond : W -> Outcome bool * W) (srv : Req -> W -> Outcome bool * W)
    (req : Req) (w : W) : W :=
  snd (srv req (snd (cond (snd (now w))))).

Definition pass_events : list Event := [ev_cond; ev_is_shutdown; ev_now].

Fixpoint passes_events (k : nat) : list Event :=
  match k with
  | O => []
  | S k' => pass_events ++ passes_events k'
  end.

Definition is_srv (e : Event) : bool :=
  match e with ev_srv => true | _ => false end.

Definition is_failure_log (e : Event) : bool :=
  match e with
  | ev_log LWarn _ _ => true
  | ev_log LFatal _ _ => true
  | _ => false
  end.

End WaitLoop.

(** *** The estimator wait, pass by pass *)

Module EstimatorPasses.
Import Py Mavros.

(** Pass [i] takes the [break]: its three reads find a time stamp other
    than [time_stamp], the first flag set and the second flag set. *)
Definition pass_breaks (reads : nat -> nat -> EstimatorStatus)
    (time_stamp : Time) (i : nat) : bool :=
  negb (Time_eqb (stamp (reads i 0%nat)) time_stamp)
  && pred_hor_position_rel (reads i 1%nat)
  && pred_hor_position_abs (reads i 2%nat).

End EstimatorPasses.

(** *** The base class [SimulationHandler] *)

Module SimulationHandler.
Import Py Py.Notations.

Section Base.
Context {S E : Type}.

(** [pass]. *)
Definition initialize_physics_params : Prog S E unit := ret tt.

Definition reset : Prog S E unit := raise (PyException "NotImplementedError").

Definition pause : Prog S E unit := raise (PyException "NotImplementedError").

Definition unpause : Prog S E unit :=
  raise (PyException "NotImplementedError").

(** [setup] calls the two methods on [self]: a subclass that overrides
    them is called through its own. *)
Definition setup (self_initialize_physics_params self_pause : Prog S E unit)
    : Prog S E unit :=
  self_initialize_physics_params ;;; self_pause.

Definition __init__ (self_setup : Prog S E unit) : Prog S E unit :=
  self_setup.

End Base.

End SimulationHandler.

(** *** The remaining methods of [AirsimHandler] *)

Module AirsimFull.
Import Py Py.Notations Airsim.

(** The two image types the handler asks for. *)
Inductive ImageType : Type := Scene | DepthPlanner.

(** [airsim.ImageRequest(camera_name, image_type, pixels_as_float,
    compress)]. *)
Record ImageRequest : Type := {
  camera_name : Z;
  image_type : ImageType;
  pixels_as_float : bool;
  compress : bool
}.

(** The client methods the handler calls besides those of
    [Airsim.MultirotorClient]. [isApiControlEnabled] gives the truth value
    the caller tests, [simGetCollisionInfo] the field [has_collided] of the
    result. *)
Class MultirotorClientMore (Obj C : Type) : Type := {
  confirmConnection : C -> Outcome unit * C;
  isApiControlEnabled : C -> Outcome bool * C;
  simGetImages : list ImageRequest -> C -> Outcome (list Obj) * C;
  simGetCollisionInfo : C -> Outcome bool * C
}.

Inductive Event (Obj : Type) : Type :=
| ev_base (e : Airsim.Event Obj)
| ev_confirmConnection (r : Outcome unit)
| ev_isApiControlEnabled (r : Outcome bool)
| ev_simGetImages (requests : list ImageRequest) (r : Outcome (list Obj))
| ev_simGetCollisionInfo (r : Outcome bool)
| ev_loginfo (msg : string)
| ev_logfatal (msg : string).

Arguments ev_base {Obj} e.
Arguments ev_confirmConnection {Obj} r.
Arguments ev_isApiControlEnabled {Obj} r.
Arguments ev_simGetImages {Obj} requests r.
Arguments ev_simGetCollisionInfo {Obj} r.
Arguments ev_loginfo {Obj} msg.
Arguments ev_logfatal {Obj} msg.

(** The client calls of a trace of [Airsim] events, in order. *)
Definition calls_of {Obj : Type} (t : list (Airsim.Event Obj))
    : list (Client.Call Obj) :=
  flat_map (fun e => match e with
                     | ev_call c _ => [c]
                     | ev_logerr _ => []
                     end) t.

(** The three methods that act on the simulated world. *)
Inductive WorldMethod : Type := Reset | Pause | Unpause.

Definition run_world_method {Obj C : Type} {vendor : MultirotorClient Obj C}
    (m : WorldMethod) : Prog (AirsimHandler Obj C) (Airsim.Event Obj) unit :=
  match m with
  | Reset => reset
  | Pause => pause
  | Unpause => unpause
  end.

Definition is_logerr {Obj : Type} (e : Airsim.Event Obj) : bool :=
  match e with
  | ev_logerr _ => true
  | ev_call _ _ => false
  end.

Section Handler.
Context {Obj C : Type} {vendor : MultirotorClient Obj C}.
Context {more : MultirotorClientMore Obj C}.

Local Abbreviation Handler := (AirsimHandler Obj C).
Local Abbreviation P := (Prog Handler (Event Obj)).

(** A method of [Airsim] run here. *)
Definition lift {A} (m : Prog Handler (Airsim.Event Obj) A) : P A :=
  fun h => let '(r, h1, t) := m h in (r, h1, map ev_base t).

(** [self._client.<call>] for the calls of [MultirotorClientMore]. *)
Definition call_more {A} (f : C -> Outcome A * C)
    (ev : Outcome A -> Event Obj) : P A :=
  fun h =>
    let '(r, c1) := f (_client h) in
    (r, set_client c1 h, [ev r]).

(** [sys.exit()] raises [SystemExit], which is no [Exception]. *)
Definition sys_exit {A} : P A := raise (BaseExc "SystemExit").

(** The fatal message is the first line of the one in the source. *)
Definition setup : P unit :=
  try_except
    (call_more confirmConnection ev_confirmConnection)
    is_Exception
    (emit (ev_logfatal "Failed to connect to an airsim client.") ;;;
     sys_exit) ;;;
  lift (call (Client.enableApiControl true)) ;;;
  lift (call (Client.armDisarm false)) ;;;
  SimulationHandler.setup SimulationHandler.initialize_physics_params
    (lift pause).

(** [__init__], with [c] the client that [airsim.MultirotorClient()]
    creates in [setup]. *)
Definition __init__ (c : C) : Outcome unit * Handler * list (Event Obj) :=
  SimulationHandler.__init__ setup
    {| _new_state := true; _client := c; _multirotor_state := VNone |}.

Definition check_connection : P unit :=
  enabled <- call_more isApiControlEnabled ev_isApiControlEnabled ;;
  if negb enabled then
    emit (ev_loginfo "Re-enabling api control.") ;;;
    lift (call (Client.enableApiControl true)) ;;;
    ret tt
  else ret tt.

Definition scene_request (camera_index : Z) : ImageRequest :=
  {| camera_name := camera_index; image_type := Scene;
     pixels_as_float := false; compress := false |}.

Definition depth_request (camera_index : Z) : ImageRequest :=
  {| camera_name := camera_index; image_type := DepthPlanner;
     pixels_as_float := true; compress := false |}.

(** [responses[0]] of an empty list raises [IndexError]. *)
Definition first_response (responses : list Obj) : P Obj :=
  match responses with
  | r :: _ => ret r
  | [] => raise (PyException "IndexError")
  end.

Definition client_camera (camera_index : Z) : P Obj :=
  responses <- call_more (simGetImages [scene_request camera_index])
                 (ev_simGetImages [scene_request camera_index]) ;;
  first_response responses.

Definition client_camera_depth (camera_index : Z) : P Obj :=
  responses <- call_more (simGetImages [depth_request camera_index])
                 (ev_simGetImages [depth_request camera_index]) ;;
  first_response responses.

Definition client_collision_check : P bool :=
  call_more simGetCollisionInfo ev_simGetCollisionInfo.

End Handler.

End AirsimFull.

(** *** The request loop on top of the telemetry callbacks *)

Module Live.
Import Py Mavros Telemetry.

(** A world in which [self._state] is the attribute the callbacks assign:
    [inbox] lists, for each read of the attribute by the main thread, the
    messages whose callbacks have run since the previous read. The clock,
    the shutdown flag and the service replies are scripted. *)
Record World : Type := {
  cache : Cache;
  inbox : list (list Notification);
  script : Scripted.Script
}.

Definition run_callbacks (w : World) : World :=
  {| cache := deliver (hd [] (inbox w)) (cache w);
     inbox := tl (inbox w);
     script := script w |}.

Definition read_state (w : World) : option State * World :=
  (_state (cache (run_callbacks w)), run_callbacks w).

Definition on_script {A} (f : Scripted.Script -> A * Scripted.Script)
    (w : World) : A * World :=
  let '(a, s1) := f (script w) in
  (a, {| cache := cache w; inbox := inbox w; script := s1 |}).

#[export] Instance World_Rospy : Rospy World := {|
  now := on_script Scripted.script_now;
  is_shutdown := on_script Scripted.script_is_shutdown;
  self_state := read_state;
  set_mode_client := fun _ w => (Scripted.mode_reply (script w), w);
  arming_client := fun _ w => (Scripted.arm_reply (script w), w)
|}.

End Live.

(** *** Concrete environments for the rest *)

Module Rig.
Import Py Mavros Telemetry TakeoffLand Airsim AirsimFull.

(** A scripted world with a GPS fix, or none. *)
Record GpsScript : Type := {
  script : Scripted.Script;
  fix_ : option NavSatFix
}.

Definition on_script {A} (f : Scripted.Script -> A * Scripted.Script)
    (w : GpsScript) : A * GpsScript :=
  let '(a, s1) := f (script w) in (a, {| script := s1; fix_ := fix_ w |}).

#[export] Instance GpsScript_Rospy : Rospy GpsScript := {|
  now := on_script Scripted.script_now;
  is_shutdown := on_script Scripted.script_is_shutdown;
  self_state := on_script Scripted.script_self_state;
  set_mode_client := fun _ w => (Scripted.mode_reply (script w), w);
  arming_client := fun _ w => (Scripted.arm_reply (script w), w)
|}.

#[export] Instance GpsScript_TOL : RospyTOL GpsScript := {|
  self_gps := fun w => (fix_ w, w);
  takeoff_client := fun _ w => (Returns true, w);
  land_client := fun _ w => (Returns true, w)
|}.

(** The vehicle is in take-off mode already, and no fix has arrived. *)
Definition taking_off_without_fix : GpsScript :=
  {| script :=
       Scripted.start_script Scripted.slow_clock (fun _ => false)
         (fun _ => Some {| connected := true; armed := true;
                           mode := "AUTO.TAKEOFF" |})
         (Returns true) (Returns true);
     fix_ := None |}.

(** The vehicle reports armed from the [n]-th read of its state on. *)
Definition arming_late (n : nat) : Scripted.Script :=
  Scripted.start_script Scripted.slow_clock (fun _ => false)
    (fun k => Some {| connected := true; armed := Nat.leb n k;
                      mode := "MANUAL" |})
    (Returns true) (Returns true).

(** The estimator reports a valid position from sample [n] on. *)
Definition valid_from (n i : nat) : EstimatorStatus :=
  Scripted.sample (11 + Z.of_nat i) (Nat.leb n i) (Nat.leb n i).

(** The estimator executable cannot be run. *)
Definition no_executable : EstimatorRun :=
  {| pose_est_ := Some "px4-ekf2"%string;
     est_status_before := Some (Scripted.sample 10 true true);
     run_process := fun _ => Raises (PyException "OSError");
     est_status_at := per_pass Scripted.never_valid |}.

Definition a_fix : NavSatFix :=
  {| latitude := 47.5%float; longitude := 8.5%float;
     altitude := 400%float |}.

Definition a_pose : PoseStamped :=
  {| position := (0, 0, 1)%float; orientation := (0, 0, 0, 1)%float |}.

(** A simulator with the connection handshake, the control flag and a
    list of camera images. *)
Record Simulator : Type := {
  sim : SimClient.Sim;
  reachable : bool;
  api_control : bool;
  images : list nat;
  collided : bool
}.

Definition simulator_invoke (c : Client.Call nat) (s : Simulator)
    : Outcome (PyVal nat) * Simulator :=
  let '(r, sim1) := SimClient.sim_invoke c (sim s) in
  (r, {| sim := sim1; reachable := reachable s;
         api_control := match c, r with
                        | Client.enableApiControl b, Returns _ => b
                        | Client.reset, Returns _ => false
                        | _, _ => api_control s
                        end;
         images := images s; collided := collided s |}).

#[export] Instance Simulator_Client : MultirotorClient nat Simulator := {|
  invoke := simulator_invoke
|}.

#[export] Instance Simulator_More : MultirotorClientMore nat Simulator := {|
  confirmConnection := fun s =>
    (if reachable s then Returns tt
     else Raises (PyException "RPCError"), s);
  isApiControlEnabled := fun s => (Returns (api_control s), s);
  simGetImages := fun _ s => (Returns (images s), s);
  simGetCollisionInfo := fun s => (Returns (collided s), s)
|}.

Definition simulator (up enabled : bool) (imgs : list nat) : Simulator :=
  {| sim := {| SimClient.resets := 0; SimClient.broken := false |};
     reachable := up; api_control := enabled; images := imgs;
     collided := false |}.

Definition handler_on (s : Simulator) : AirsimHandler nat Simulator :=
  {| _new_state := true; _client := s; _multirotor_state := VNone |}.

End Rig.

(** * Properties of [_set_service_request] *)

Module ServiceRequestFacts.
Import Py Py.Notations Mavros.

Ltac run_request :=
  unfold _set_mode_request, _set_arming_request, _set_service_request,
    try_except, bind, emit, ask, act, ret, outcome, trace, final;
  simpl.

Section Generic.
Context {W : Type} {ros : Rospy W} {Req : Type}.
Variables (name : string) (cond : W -> Outcome bool * W).
Variables (srv : Req -> W -> Outcome bool * W) (req : Req).


(** C9. When the readiness condition already holds on entry, the call
    returns [True] at once: its whole trace is the clock reading, the one
    evaluation of the condition and the log line, so the service is not
    invoked and the condition is not polled again; the world is the one the
    evaluation of the condition left. *)
Theorem short_circuit_when_ready (fuel : nat) (wait_time timeout : float)
    (w : W) :
  fst (cond (snd (now w))) = Returns true ->
  outcome (_set_service_request fuel name cond srv req wait_time timeout w)
    = Returns true
  /\ trace (_set_service_request fuel name cond srv req wait_time timeout w)
     = [ev_now; ev_cond;
        ev_log LInfo "Service %s condition is already true." name]
  /\ final (_set_service_request fuel name cond srv req wait_time timeout w)
     = snd (cond (snd (now w))).
Proof.
  intros Hc. run_request.
  destruct (now w) as [t0 w1]; simpl in *.
  destruct (cond w1) as [c w2]; simpl in *; subst c; simpl.
  repeat split.
Qed.

(** The two rejections the body tests for. When the condition is false on
    entry and the call of [srv] raises [rospy.ServiceException] or returns
    a false value, the call returns [False]; its trace ends with the call
    of [srv] and the warning, so the condition is evaluated once, before
    that call, and never after it. Through a [rospy.ServiceProxy] the
    second case does not arise: see [proxy_reply_is_never_false]. *)
Lemma rejected_without_polling (fuel : nat) (wait_time timeout : float)
    (w : W) :
  fst (cond (snd (now w))) = Returns false ->
  (fst (srv req (snd (cond (snd (now w))))) = Raises ServiceException
   \/ fst (srv req (snd (cond (snd (now w))))) = Returns false) ->
  outcome (_set_service_request fuel name cond srv req wait_time timeout w)
    = Returns false
  /\ trace (_set_service_request fuel name cond srv req wait_time timeout w)
     = [ev_now; ev_cond; ev_srv;
        ev_log LWarn "Call to service %s failed." name]
  /\ final (_set_service_request fuel name cond srv req wait_time timeout w)
     = snd (srv req (snd (cond (snd (now w))))).
Proof.
  intros Hc Hs. run_request.
  destruct (now w) as [t0 w1]; simpl in *.
  destruct (cond w1) as [c w2]; simpl in *; subst c; simpl.
  destruct (srv req w2) as [r w3]; simpl in *.
  destruct Hs as [Hs | Hs]; subst r; simpl; repeat split.
Qed.

(** A proxy that returns gives the [if] of line 114 a true value. *)
Lemma proxy_reply_is_never_false (r : Outcome Response) :
  proxy_reply r <> Returns false.
Proof. destruct r; simpl; discriminate. Qed.

(** Whatever the response of the service says, a call through a proxy
    that returns takes the branch of the accepted request: the success is
    logged and the condition is evaluated again. *)
Lemma answered_request_is_polled (fuel : nat) (wait_time timeout : float)
    (w : W) (response : Response) :
  fst (cond (snd (now w))) = Returns false ->
  fst (srv req (snd (cond (snd (now w)))))
  = proxy_reply (Returns response) ->
  exists rest,
    trace (_set_service_request (S fuel) name cond srv req wait_time
             timeout w)
    = [ev_now; ev_cond; ev_srv;
       ev_log LInfo "Service %s request successful!" name; ev_cond]
      ++ rest.
Proof.
  intros Hc Hs. run_request.
  destruct (now w) as [t0 w1]; simpl in *.
  destruct (cond w1) as [c w2]; simpl in *; subst c; simpl.
  destruct (srv req w2) as [r w3]; simpl in *; subst r; simpl.
  run_request.
  repeat match goal with
         | |- context [match ?x with _ => _ end] =>
             lazymatch x with
             | context [match _ with _ => _ end] => fail
             | _ => destruct x; simpl
             end
         end;
    eexists; reflexivity.
Qed.

(** Any other exception of the service call is not caught. *)
Lemma other_exceptions_escape (fuel : nat) (wait_time timeout : float) (w : W)
    (e : Exn) :
  fst (cond (snd (now w))) = Returns false ->
  fst (srv req (snd (cond (snd (now w))))) = Raises e ->
  is_ServiceException e = false ->
  outcome (_set_service_request fuel name cond srv req wait_time timeout w)
    = Raises e.
Proof.
  intros Hc Hs He. run_request.
  destruct (now w) as [t0 w1]; simpl in *.
  destruct (cond w1) as [c w2]; simpl in *; subst c; simpl.
  destruct (srv req w2) as [r w3]; simpl in *; subst r.
  rewrite He. reflexivity.
Qed.

(** One pass of the wait loop that finds the condition false and a shutdown
    requested leaves the loop with [True]. *)
Lemma wait_loop_leaves_on_shutdown (fuel : nat) (start_time : Time)
    (timeout : float) (w : W) :
  fst (cond w) = Returns false ->
  fst (is_shutdown (snd (cond w))) = true ->
  outcome (wait_for_updated_state (S fuel) name cond start_time timeout w)
    = Returns true
  /\ trace (wait_for_updated_state (S fuel) name cond start_time timeout w)
     = [ev_cond; ev_is_shutdown].
Proof.
  intros Hc Hd. simpl. run_request.
  destruct (cond w) as [c w1]; simpl in *; subst c; simpl.
  destruct (is_shutdown w1) as [d w2]; simpl in *; subst d; simpl.
  split; reflexivity.
Qed.

(** C7. The argument [wait_time] does not occur in the body: two calls that
    differ in nothing but [wait_time] have the same outcome, the same trace
    and the same final world. *)
Theorem wait_time_is_ignored (fuel : nat) (wait_time wait_time' timeout : float)
    (w : W) :
  _set_service_request fuel name cond srv req wait_time timeout w
  = _set_service_request fuel name cond srv req wait_time' timeout w.
Proof. reflexivity. Qed.

End Generic.

Section Wrappers.
Context {W : Type} {ros : Rospy W}.




End Wrappers.

Import Scripted.

Lemma short_circuit_when_ready_witness :
  fst (armed_is true (snd (now already_armed))) = Returns true
  /\ (outcome (_set_arming_request 5 true default_wait_time default_timeout
                 already_armed) = Returns true
      /\ trace (_set_arming_request 5 true default_wait_time default_timeout
                  already_armed)
         = [ev_now; ev_cond;
            ev_log LInfo "Service %s condition is already true."
              "/mavros/cmd/arming"]
      /\ final (_set_arming_request 5 true default_wait_time default_timeout
                  already_armed)
         = snd (armed_is true (snd (now already_armed)))).
Proof.
  split; [reflexivity |].
  apply (short_circuit_when_ready "/mavros/cmd/arming" (armed_is true)
           arming_client true 5 default_wait_time default_timeout
           already_armed).
  reflexivity.
Defined.

(** C4. A request the service refuses is not rejected. The arming
    service answers with [success = False] and the vehicle stays disarmed:
    the proxy returns the response, whose truth value is true, so the call
    logs the request as successful and polls the condition, five times,
    until the timeout of 5.0 s. Its [False] is the one of the timeout
    branch, with the fatal log line. *)
Theorem refused_request_is_polled :
  fst (armed_is true (snd (now arming_refused_by_service))) = Returns false
  /\ arm_reply arming_refused_by_service = Returns true
  /\ outcome (_set_arming_request 10 true default_wait_time default_timeout
                arming_refused_by_service) = Returns false
  /\ trace (_set_arming_request 10 true default_wait_time default_timeout
              arming_refused_by_service)
     = [ev_now; ev_cond; ev_srv;
        ev_log LInfo "Service %s request successful!" "/mavros/cmd/arming";
        ev_cond; ev_is_shutdown; ev_now;
        ev_cond; ev_is_shutdown; ev_now;
        ev_cond; ev_is_shutdown; ev_now;
        ev_cond; ev_is_shutdown; ev_now;
        ev_cond; ev_is_shutdown; ev_now;
        ev_log LFatal "Call to service %s successful but not response..."
          "/mavros/cmd/arming"].
Proof. repeat split. Qed.

(** A service that cannot be reached is rejected at once. *)
Example unreachable_service_is_rejected :
  outcome (_set_arming_request 10 true default_wait_time default_timeout
             arming_unreachable) = Returns false
  /\ trace (_set_arming_request 10 true default_wait_time default_timeout
              arming_unreachable)
     = [ev_now; ev_cond; ev_srv;
        ev_log LWarn "Call to service %s failed." "/mavros/cmd/arming"].
Proof. split; reflexivity. Qed.

(** C1. A shutdown requested while the wait loop is running makes the call
    return [True], the value it returns for a confirmed command: here the
    vehicle never arms, the shutdown flag is found set in the second pass,
    and the predicate is still false in the world the call leaves. *)
Theorem shutdown_reports_success :
  outcome (_set_arming_request 10 true default_wait_time default_timeout
             shutdown_while_waiting) = Returns true
  /\ trace (_set_arming_request 10 true default_wait_time default_timeout
              shutdown_while_waiting)
     = [ev_now; ev_cond; ev_srv;
        ev_log LInfo "Service %s request successful!" "/mavros/cmd/arming";
        ev_cond; ev_is_shutdown; ev_now;
        ev_cond; ev_is_shutdown]
  /\ fst (armed_is true
            (final (_set_arming_request 10 true default_wait_time
                      default_timeout shutdown_while_waiting)))
     = Returns false.
Proof. repeat split. Qed.

(** With no shutdown the same call ends in the timeout branch and returns
    [False]. *)
Example timeout_reports_failure :
  outcome (_set_arming_request 10 true default_wait_time default_timeout
             never_armed) = Returns false.
Proof. reflexivity. Qed.



(** C7 at an input: a poll interval of ten seconds, twice the timeout,
    gives the run of the default interval, poll after poll with only the
    shutdown check and the clock reading in between. *)
Example long_poll_interval_same_run :
  trace (_set_arming_request 2 true 10%float default_timeout never_armed)
  = trace (_set_arming_request 2 true default_wait_time default_timeout
             never_armed)
  /\ trace (_set_arming_request 2 true 10%float default_timeout never_armed)
     = [ev_now; ev_cond; ev_srv;
        ev_log LInfo "Service %s request successful!" "/mavros/cmd/arming";
        ev_cond; ev_is_shutdown; ev_now;
        ev_cond; ev_is_shutdown; ev_now].
Proof. split; reflexivity. Qed.

End ServiceRequestFacts.

(** * Properties of [_reset_pose_estimator] *)

Module EstimatorFacts.
Import Py Mavros EstimatorPasses.

(** The exit of the loop, read by read: the pass that leaves has read a
    time stamp other than [time_stamp], then the first flag set, then the
    second flag set. *)
Lemma await_exit_reads (reads : nat -> nat -> EstimatorStatus)
    (time_stamp : Time) (fuel : nat) :
  forall i0 i,
    await_valid_estimate reads time_stamp fuel i0 = Returns i ->
    (i0 <= i)%nat
    /\ Time_eqb (stamp (reads i 0%nat)) time_stamp = false
    /\ pred_hor_position_rel (reads i 1%nat) = true
    /\ pred_hor_position_abs (reads i 2%nat) = true.
Proof.
  induction fuel as [| fuel IH]; intros i0 i Hret; simpl in Hret.
  - discriminate.
  - destruct (Time_eqb (stamp (reads i0 0%nat)) time_stamp) eqn:Hstamp.
    + apply IH in Hret. intuition lia.
    + destruct (pred_hor_position_rel (reads i0 1%nat)) eqn:Hrel.
      * destruct (pred_hor_position_abs (reads i0 2%nat)) eqn:Habs.
        -- injection Hret as <-. auto.
        -- apply IH in Hret. intuition lia.
      * apply IH in Hret. intuition lia.
Qed.

(** The loop raises nothing. *)
Lemma await_does_not_raise (reads : nat -> nat -> EstimatorStatus)
    (time_stamp : Time) (fuel : nat) :
  forall i0 e, await_valid_estimate reads time_stamp fuel i0 <> Raises e.
Proof.
  induction fuel as [| fuel IH]; intros i0 e; simpl.
  - discriminate.
  - destruct (Time_eqb _ _); [apply IH |].
    destruct (pred_hor_position_rel _); [| apply IH].
    destruct (pred_hor_position_abs _); [discriminate | apply IH].
Qed.

(** The loop has no other way out: when no pass reads a fresh time stamp
    followed by two set flags, it is still running at the end of any
    fuel. *)
Lemma await_spins_reads (reads : nat -> nat -> EstimatorStatus)
    (time_stamp : Time) :
  (forall i, Time_eqb (stamp (reads i 0%nat)) time_stamp = true
             \/ pred_hor_position_rel (reads i 1%nat) = false
             \/ pred_hor_position_abs (reads i 2%nat) = false) ->
  forall fuel i0, await_valid_estimate reads time_stamp fuel i0 = Spins.
Proof.
  intros Hnever. induction fuel as [| fuel IH]; intros i0; simpl.
  - reflexivity.
  - destruct (Hnever i0) as [-> | [Hrel | Habs]]; [apply IH | |].
    + rewrite Hrel. destruct (Time_eqb _ _); apply IH.
    + rewrite Habs. destruct (Time_eqb _ _); [apply IH |].
      destruct (pred_hor_position_rel _); apply IH.
Qed.

(** A pass over a sample that is not fresh and valid goes on to the next
    pass. *)
Lemma await_skips (samples : nat -> EstimatorStatus) (time_stamp : Time)
    (fuel i0 : nat) :
  fresh_and_valid time_stamp (samples i0) = false ->
  await_valid_estimate (per_pass samples) time_stamp (S fuel) i0
  = await_valid_estimate (per_pass samples) time_stamp fuel (S i0).
Proof.
  unfold fresh_and_valid, per_pass. simpl. intros Hbad.
  destruct (Time_eqb (stamp (samples i0)) time_stamp); [reflexivity |].
  destruct (pred_hor_position_rel (samples i0)); [| reflexivity].
  destruct (pred_hor_position_abs (samples i0)); [discriminate | reflexivity].
Qed.

(** A pass over a fresh and valid sample leaves the loop. *)
Lemma await_takes (samples : nat -> EstimatorStatus) (time_stamp : Time)
    (fuel i0 : nat) :
  fresh_and_valid time_stamp (samples i0) = true ->
  await_valid_estimate (per_pass samples) time_stamp (S fuel) i0
  = Returns i0.
Proof.
  unfold fresh_and_valid, per_pass. simpl. intros Hgood.
  destruct (Time_eqb (stamp (samples i0)) time_stamp); [discriminate |].
  destruct (pred_hor_position_rel (samples i0)); [| discriminate].
  destruct (pred_hor_position_abs (samples i0)); [reflexivity | discriminate].
Qed.

Lemma await_spins (samples : nat -> EstimatorStatus) (time_stamp : Time) :
  (forall i, fresh_and_valid time_stamp (samples i) = false) ->
  forall fuel i0,
    await_valid_estimate (per_pass samples) time_stamp fuel i0 = Spins.
Proof.
  intros Hnever. induction fuel as [| fuel IH]; intros i0.
  - reflexivity.
  - rewrite await_skips by apply Hnever. apply IH.
Qed.

(** The wait ends at the first fresh and valid sample, given the passes to
    reach it. *)
Lemma await_reaches_first_valid (samples : nat -> EstimatorStatus)
    (time_stamp : Time) (n : nat) :
  forall i0 fuel,
    (forall j, (i0 <= j < i0 + n)%nat ->
               fresh_and_valid time_stamp (samples j) = false) ->
    fresh_and_valid time_stamp (samples (i0 + n)%nat) = true ->
    (n < fuel)%nat ->
    await_valid_estimate (per_pass samples) time_stamp fuel i0
    = Returns (i0 + n)%nat.
Proof.
  induction n as [| n IH]; intros i0 fuel Hbefore Hgood Hfuel.
  - destruct fuel as [| fuel]; [lia |].
    rewrite Nat.add_0_r in *. now apply await_takes.
  - destruct fuel as [| fuel]; [lia |].
    rewrite await_skips by (apply Hbefore; lia).
    replace (i0 + S n)%nat with (S i0 + n)%nat in * by lia.
    apply IH; [| assumption | lia].
    intros j Hj. apply Hbefore. lia.
Qed.

(** One pass of the loop: it takes the [break] or goes on to the next
    pass. *)
Lemma await_one_pass (reads : nat -> nat -> EstimatorStatus)
    (time_stamp : Time) (fuel i0 : nat) :
  await_valid_estimate reads time_stamp (S fuel) i0
  = if pass_breaks reads time_stamp i0 then Returns i0
    else await_valid_estimate reads time_stamp fuel (S i0).
Proof.
  unfold pass_breaks. simpl.
  destruct (Time_eqb (stamp (reads i0 0%nat)) time_stamp); simpl;
    [reflexivity |].
  destruct (pred_hor_position_rel (reads i0 1%nat)); simpl;
    [| reflexivity].
  destruct (pred_hor_position_abs (reads i0 2%nat)); reflexivity.
Qed.

(** What a breaking pass has read. *)
Lemma pass_breaks_reads (reads : nat -> nat -> EstimatorStatus)
    (time_stamp : Time) (i : nat) :
  pass_breaks reads time_stamp i = true ->
  Time_eqb (stamp (reads i 0%nat)) time_stamp = false
  /\ pred_hor_position_rel (reads i 1%nat) = true
  /\ pred_hor_position_abs (reads i 2%nat) = true.
Proof.
  unfold pass_breaks. intros Hbreak.
  apply andb_prop in Hbreak as [Hbreak Habs].
  apply andb_prop in Hbreak as [Hstamp Hrel].
  apply negb_true_iff in Hstamp. auto.
Qed.

(** When the three reads of a pass see one sample, the pass breaks exactly
    on a sample that is fresh and valid. *)
Lemma whole_sample_pass (samples : nat -> EstimatorStatus)
    (time_stamp : Time) (i : nat) :
  pass_breaks (per_pass samples) time_stamp i
  = fresh_and_valid time_stamp (samples i).
Proof. reflexivity. Qed.

Lemma await_spins_without_break (reads : nat -> nat -> EstimatorStatus)
    (time_stamp : Time) :
  (forall i, pass_breaks reads time_stamp i = false) ->
  forall fuel i0, await_valid_estimate reads time_stamp fuel i0 = Spins.
Proof.
  intros Hnever. induction fuel as [| fuel IH]; intros i0.
  - reflexivity.
  - rewrite await_one_pass, Hnever. apply IH.
Qed.

(** C5, as the code has it. The wait loop consults neither a clock nor the
    shutdown flag, and its only exit is the [break]: over any telemetry in
    which no pass reads a time stamp other than the one read before the
    restart and then reads both validity flags set, the loop is still
    running whatever number of passes it is given, and so is
    [_reset_pose_estimator] once the two estimator processes have been
    run. The three reads of a pass may see different samples. *)
Theorem wait_never_ends_without_breaking_pass (est : string)
    (before : EstimatorStatus) (procs : list string -> Outcome Z)
    (reads : nat -> nat -> EstimatorStatus) (stop_code start_code : Z) :
  procs [(px4_lib ++ est)%string; "stop"%string] = Returns stop_code ->
  procs [(px4_lib ++ est)%string; "start"%string] = Returns start_code ->
  (forall i, pass_breaks reads (stamp before) i = false) ->
  forall fuel,
    await_valid_estimate reads (stamp before) fuel 0 = Spins
    /\ _reset_pose_estimator fuel
         {| pose_est_ := Some est;
            est_status_before := Some before;
            run_process := procs;
            est_status_at := reads |} = Spins.
Proof.
  intros Hstop Hstart Hnever fuel.
  assert (Hloop := await_spins_without_break reads (stamp before) Hnever
                     fuel 0%nat).
  split; [exact Hloop |].
  unfold _reset_pose_estimator, popen_wait.
  cbn [pose_est_ est_status_before run_process est_status_at].
  rewrite Hstop, Hstart, Hloop. reflexivity.
Qed.

(** The case of whole samples: when the cached message is not replaced
    during a pass and no sample has a time stamp other than the one read
    before the restart together with both validity flags, the wait never
    ends. *)
Lemma estimator_wait_never_ends (est : string) (before : EstimatorStatus)
    (procs : list string -> Outcome Z) (samples : nat -> EstimatorStatus)
    (stop_code start_code : Z) :
  procs [(px4_lib ++ est)%string; "stop"%string] = Returns stop_code ->
  procs [(px4_lib ++ est)%string; "start"%string] = Returns start_code ->
  (forall i, fresh_and_valid (stamp before) (samples i) = false) ->
  forall fuel,
    await_valid_estimate (per_pass samples) (stamp before) fuel 0 = Spins
    /\ _reset_pose_estimator fuel
         {| pose_est_ := Some est;
            est_status_before := Some before;
            run_process := procs;
            est_status_at := per_pass samples |} = Spins.
Proof.
  intros Hstop Hstart Hnever fuel.
  assert (Hloop := await_spins samples (stamp before) Hnever fuel 0%nat).
  split; [exact Hloop |].
  unfold _reset_pose_estimator, popen_wait.
  cbn [pose_est_ est_status_before run_process est_status_at].
  rewrite Hstop, Hstart, Hloop. reflexivity.
Qed.

(** C8, as the code has it. The wait ends only in a pass whose read of
    the time stamp finds a value other than the one read before the
    restart, newer or older, and whose reads of the two validity flags
    both find them set; every pass before it has read the old time stamp
    or a flag unset. When the three reads of the pass that ends the wait
    saw one sample, that sample has another time stamp and both flags
    set. *)
Theorem wait_ends_only_on_breaking_reads
    (reads : nat -> nat -> EstimatorStatus) (time_stamp : Time)
    (fuel i0 i : nat) :
  await_valid_estimate reads time_stamp fuel i0 = Returns i ->
  (Time_eqb (stamp (reads i 0%nat)) time_stamp = false
   /\ pred_hor_position_rel (reads i 1%nat) = true
   /\ pred_hor_position_abs (reads i 2%nat) = true)
  /\ (forall j, (i0 <= j < i)%nat ->
                Time_eqb (stamp (reads j 0%nat)) time_stamp = true
                \/ pred_hor_position_rel (reads j 1%nat) = false
                \/ pred_hor_position_abs (reads j 2%nat) = false)
  /\ (reads i 1%nat = reads i 0%nat ->
      reads i 2%nat = reads i 0%nat ->
      fresh_and_valid time_stamp (reads i 0%nat) = true).
Proof.
  revert i0. induction fuel as [| fuel IH]; intros i0 Hret.
  - discriminate.
  - rewrite await_one_pass in Hret.
    destruct (pass_breaks reads time_stamp i0) eqn:Hhere.
    + injection Hret as <-.
      split; [now apply pass_breaks_reads |].
      split; [intros j Hj; lia |].
      intros Hrel Habs. unfold pass_breaks in Hhere.
      rewrite Hrel, Habs in Hhere. exact Hhere.
    + destruct (IH _ Hret) as (Hreads & Hbefore & Hwhole).
      split; [assumption |]. split; [| assumption].
      intros j Hj. destruct (Nat.eq_dec j i0) as [-> | Hne];
        [| apply Hbefore; lia].
      unfold pass_breaks in Hhere.
      destruct (Time_eqb (stamp (reads i0 0%nat)) time_stamp);
        [now left |].
      destruct (pred_hor_position_rel (reads i0 1%nat));
        [| right; now left].
      destruct (pred_hor_position_abs (reads i0 2%nat));
        [discriminate | right; now right].
Qed.

Import Scripted.

Lemma wait_never_ends_without_breaking_pass_witness :
  (forall i, pass_breaks (per_pass never_valid)
               (stamp (sample 10 true true)) i = false)
  /\ _reset_pose_estimator 50
       (estimator_run (sample 10 true true) (per_pass never_valid)) = Spins.
Proof.
  assert (Hnever : forall i,
             pass_breaks (per_pass never_valid)
               (stamp (sample 10 true true)) i = false).
  { intros i. unfold pass_breaks, per_pass, never_valid, sample.
    cbn [pred_hor_position_rel pred_hor_position_abs].
    now rewrite andb_false_r. }
  split; [exact Hnever |].
  apply (wait_never_ends_without_breaking_pass "px4-ekf2"
           (sample 10 true true) (fun _ => Returns 0)
           (per_pass never_valid) 0 0 eq_refl eq_refl Hnever 50%nat).
Defined.

(** C5, the claim at an input: the message cached before the restart is
    stamped 10 s. The subscriber thread replaces the cached message
    between the reads of the first pass: the time stamp is read from a
    message stamped 11 s with both flags unset, the first flag from one
    stamped 12 s with only that flag set, the second flag from one
    stamped 13 s with only that flag set. No sample of the trace has
    another time stamp together with both flags, and the wait ends in the
    first pass. *)
Lemma no_valid_sample_yet_wait_ends :
  (forall i j, fresh_and_valid (at_sec 10) (mixed_reads i j) = false)
  /\ await_valid_estimate mixed_reads (at_sec 10) 1 0 = Returns 0%nat
  /\ _reset_pose_estimator 1
       (estimator_run (sample 10 true true) mixed_reads) = Returns tt.
Proof.
  split; [| split; reflexivity].
  intros i j. destruct j as [| [| j]]; reflexivity.
Qed.

(** C8, the claim at an input: the message cached before the restart is
    stamped 10 s; the first sample after it is stamped 5 s with both flags
    set. It is not newer, and it ends the wait. *)
Lemma older_stamp_ends_wait :
  await_valid_estimate (per_pass clock_went_back) (at_sec 10) 1 0
  = Returns 0%nat
  /\ _reset_pose_estimator 1
       (estimator_run (sample 10 true true) (per_pass clock_went_back))
     = Returns tt
  /\ Time_ltb (at_sec 10) (stamp (clock_went_back 0)) = false
  /\ newer_and_valid (at_sec 10) (clock_went_back 0) = false.
Proof. repeat split. Qed.

Lemma wait_ends_only_on_breaking_reads_witness :
  await_valid_estimate mixed_reads (at_sec 10) 1 0 = Returns 0%nat
  /\ (Time_eqb (stamp (mixed_reads 0 0)) (at_sec 10) = false
      /\ pred_hor_position_rel (mixed_reads 0 1) = true
      /\ pred_hor_position_abs (mixed_reads 0 2) = true).
Proof.
  split; [reflexivity |].
  apply (wait_ends_only_on_breaking_reads mixed_reads (at_sec 10) 1 0 0).
  reflexivity.
Defined.

End EstimatorFacts.

(** * Properties of the AirSim handler *)

Module AirsimFacts.
Import Py Py.Notations Airsim.
Local Open Scope float_scope.

Ltac run_handler :=
  unfold run_command, reset, pause, unpause, client_arm, client_takeoff,
    client_land, client_cmd_vel, client_state, call, try_except, bind,
    emit, gets, modify, ret, outcome, trace, final;
  simpl.

(** Case analysis on the next client call of the goal. *)
Ltac next_call :=
  match goal with
  | |- context [invoke ?c ?s] =>
      let r := fresh "r" in
      let s1 := fresh "s" in
      let Hcall := fresh "Hcall" in
      destruct (invoke c s) as [r s1] eqn:Hcall; destruct r; simpl
  | |- context [is_Exception ?e] => destruct (is_Exception e) eqn:?; simpl
  end.

Section Handler.
Context {Obj C : Type} {vendor : MultirotorClient Obj C}.

Local Abbreviation Handler := (AirsimHandler Obj C).



(** With the flag up, [client_state] asks the client. *)
Lemma client_state_fetches (h : Handler) :
  _new_state h = true ->
  outcome (client_state h)
  = fst (invoke Client.getMultirotorState (_client h))
  /\ exists r, trace (client_state h)
               = [ev_call Client.getMultirotorState r].
Proof.
  intros Hflag. run_handler. rewrite Hflag.
  next_call; (split; [reflexivity | eexists; reflexivity]).
Qed.

(** [unpause] raises the flag when the client call returns. *)
Lemma unpause_marks_stale (h : Handler) (v : PyVal Obj) :
  fst (invoke (Client.simPause false) (_client h)) = Returns v ->
  _new_state (final (unpause h)) = true.
Proof.
  intros Hcall. run_handler.
  destruct (invoke (Client.simPause false) (_client h)) as [r s1].
  simpl in Hcall. subst r. reflexivity.
Qed.


(** [reset], [pause] and [unpause] are the methods with a handler: no
    [Exception] leaves them. *)
Lemma world_methods_swallow_exceptions (h : Handler) (e : Exn) :
  is_Exception e = true ->
  outcome (reset h) <> Raises e
  /\ outcome (pause h) <> Raises e
  /\ outcome (unpause h) <> Raises e.
Proof.
  intros He. repeat split; run_handler; repeat next_call;
    try discriminate; intros [= ->]; congruence.
Qed.


(** C10. [client_takeoff] calls the client's [moveToZAsync] with [z] the
    negation of [takeoff_z], velocity [1.0] and a timeout of [2.0]
    seconds, and then [join] on the future that call returned: the trace
    holds these calls with what the client answered, the outcome is the
    outcome of [join] (or of [moveToZAsync] when it does not return), and
    the client is left as the last call left it. *)
Theorem takeoff_moves_to_negated_altitude (takeoff_z : float) (h : Handler) :
  trace (client_takeoff takeoff_z h)
  = ev_call (Client.moveToZAsync (- takeoff_z) 1.0 2.0)
      (fst (invoke (Client.moveToZAsync (- takeoff_z) 1.0 2.0) (_client h)))
    :: match fst (invoke (Client.moveToZAsync (- takeoff_z) 1.0 2.0)
                    (_client h)) with
       | Returns future =>
           [ev_call (Client.join future)
              (fst (invoke (Client.join future)
                      (snd (invoke
                              (Client.moveToZAsync (- takeoff_z) 1.0 2.0)
                              (_client h)))))]
       | _ => []
       end
  /\ outcome (client_takeoff takeoff_z h)
     = match fst (invoke (Client.moveToZAsync (- takeoff_z) 1.0 2.0)
                    (_client h)) with
       | Returns future =>
           fst (invoke (Client.join future)
                  (snd (invoke (Client.moveToZAsync (- takeoff_z) 1.0 2.0)
                          (_client h))))
       | Raises e => Raises e
       | Spins => Spins
       end
  /\ final (client_takeoff takeoff_z h)
     = set_client
         match fst (invoke (Client.moveToZAsync (- takeoff_z) 1.0 2.0)
                      (_client h)) with
         | Returns future =>
             snd (invoke (Client.join future)
                    (snd (invoke
                            (Client.moveToZAsync (- takeoff_z) 1.0 2.0)
                            (_client h))))
         | _ =>
             snd (invoke (Client.moveToZAsync (- takeoff_z) 1.0 2.0)
                    (_client h))
         end h.
Proof.
  run_handler.
  destruct (invoke (Client.moveToZAsync (- takeoff_z) 1 2) (_client h))
    as [r s1].
  destruct r as [future | e |]; simpl.
  - destruct (invoke (Client.join future) s1) as [r' s2].
    repeat split.
  - repeat split.
  - repeat split.
Qed.

End Handler.

Import SimClient.



(** After [reset] and [unpause] the read does fetch from the client. *)
Example reset_unpause_then_state_is_fresh :
  outcome (client_state (final (unpause (final (reset cached_handler)))))
  = Returns (VObj 1%nat).
Proof. reflexivity. Qed.



(** C10 at an input. *)
Example takeoff_to_three_and_a_half :
  trace (client_takeoff 3.5 cached_handler)
  = [ev_call (Client.moveToZAsync (-3.5) 1.0 2.0) (Returns (VObj 0%nat));
     ev_call (Client.join (VObj 0%nat)) (Returns VNone)].
Proof. reflexivity. Qed.

End AirsimFacts.

(** * The elapsed time in binary64 *)

Module ElapsedFacts.
Import Mavros.

Lemma shr_1_nonneg (mrs : shr_record) :
  0 <= shr_m mrs -> 0 <= shr_m (shr_1 mrs).
Proof.
  destruct mrs as [m r s]. simpl. intros Hm.
  destruct m as [| [p | p |] | p]; simpl; lia.
Qed.

Lemma iter_shr_1_nonneg (p : positive) :
  forall mrs, 0 <= shr_m mrs -> 0 <= shr_m (iter_pos shr_1 p mrs).
Proof.
  induction p as [p IH | p IH |]; intros mrs Hm; simpl.
  - apply IH, IH, shr_1_nonneg, Hm.
  - apply IH, IH, Hm.
  - apply shr_1_nonneg, Hm.
Qed.

Lemma shr_fexp_nonneg (m e : Z) (l : location) :
  0 <= m -> 0 <= shr_m (fst (shr_fexp prec emax m e l)).
Proof.
  intros Hm. unfold shr_fexp, shr.
  assert (Hstart : 0 <= shr_m (shr_record_of_loc m l))
    by (destruct l as [| []]; exact Hm).
  destruct (fexp prec emax (Zdigits2 m + e) - e); simpl;
    [assumption | now apply iter_shr_1_nonneg | assumption].
Qed.

Lemma round_nearest_even_nonneg (m : Z) (l : location) :
  0 <= m -> 0 <= round_nearest_even m l.
Proof.
  intros Hm. destruct l as [| []]; simpl; try lia.
  destruct (Z.even m); lia.
Qed.

(** Rounding a mantissa that is not negative, with the sign bit clear,
    gives no negative number and no NaN. *)
Lemma binary_round_aux_not_below_zero (m e : Z) (l : location) :
  0 <= m -> not_below_zero (binary_round_aux prec emax false m e l).
Proof.
  intros Hm. unfold binary_round_aux.
  pose proof (shr_fexp_nonneg m e l Hm) as H1.
  destruct (shr_fexp prec emax m e l) as [mrs1 e1]. simpl in H1.
  pose proof (shr_fexp_nonneg
                (round_nearest_even (shr_m mrs1) (loc_of_shr_record mrs1))
                e1 loc_Exact
                (round_nearest_even_nonneg _ _ H1)) as H2.
  destruct (shr_fexp prec emax _ e1 loc_Exact) as [mrs2 e2]. simpl in H2.
  destruct (shr_m mrs2) as [| p | p]; simpl; [exact I | | lia].
  destruct (e2 <=? _); simpl; reflexivity.
Qed.

Lemma binary_normalize_not_below_zero (m e : Z) :
  0 <= m -> not_below_zero (binary_normalize prec emax m e false).
Proof.
  intros Hm. destruct m as [| p | p]; simpl; [exact I | | lia].
  unfold binary_round.
  destruct (shl_align p e _) as [mz ez].
  apply binary_round_aux_not_below_zero. lia.
Qed.

Lemma SFadd_not_below_zero (x y : spec_float) :
  not_below_zero x -> not_below_zero y ->
  not_below_zero (SFadd prec emax x y).
Proof.
  destruct x as [sx | sx | | sx mx ex], y as [sy | sy | | sy my ey];
    simpl; intros Hx Hy; subst; try contradiction; try exact I;
    try reflexivity.
  - destruct sx, sy; exact I.
  - apply binary_normalize_not_below_zero. simpl. lia.
Qed.

Lemma SFdiv_not_below_zero (x : spec_float) (my : positive) (ey : Z) :
  not_below_zero x ->
  not_below_zero (SFdiv prec emax x (S754_finite false my ey)).
Proof.
  destruct x as [sx | sx | | sx mx ex]; simpl; intros Hx; subst;
    try contradiction; try exact I; try reflexivity.
  unfold SFdiv_core_binary.
  set (s := _ - _ - _).
  set (m' := match s with Z0 => _ | Zpos _ => _ | Zneg _ => _ end).
  assert (Hm' : 0 <= m').
  { unfold m'. destruct s; try lia. apply Z.shiftl_nonneg. lia. }
  pose proof (Z_div_mod m' (Zpos my) eq_refl) as Hdiv.
  destruct (Z.div_eucl m' (Zpos my)) as [q r].
  apply binary_round_aux_not_below_zero.
  destruct Hdiv as [Heq Hr]. nia.
Qed.

Lemma float_of_Z_not_below_zero (z : Z) :
  0 <= z -> not_below_zero (Prim2SF (float_of_Z z)).
Proof.
  intros Hz. unfold float_of_Z.
  destruct (Z.ltb_spec z 0) as [Hneg | _]; [lia |].
  rewrite FloatAxioms.of_uint63_spec.
  apply binary_normalize_not_below_zero.
  apply Uint63.to_Z_bounded.
Qed.

(** The elapsed time between two readings of a clock that does not run
    backwards is not below zero. *)
Lemma elapsed_sec_not_below_zero (a b : Time) :
  to_nsec b <= to_nsec a ->
  not_below_zero (Prim2SF (elapsed_sec a b)).
Proof.
  intros Hclock. unfold elapsed_sec.
  rewrite FloatAxioms.add_spec, FloatAxioms.div_spec.
  apply SFadd_not_below_zero.
  - apply float_of_Z_not_below_zero. apply Z.div_pos; lia.
  - change (Prim2SF 1e9) with (S754_finite false 8388608000000000 (-23)).
    apply SFdiv_not_below_zero, float_of_Z_not_below_zero.
    apply Z.mod_pos_bound. lia.
Qed.

Lemma leb_not_below_zero (t x : float) :
  (t <=? 0)%float = true ->
  not_below_zero (Prim2SF x) ->
  (t <=? x)%float = true.
Proof.
  rewrite !FloatAxioms.leb_spec.
  change (Prim2SF 0) with (S754_zero false).
  destruct (Prim2SF t) as [st | st | | st mt et],
    (Prim2SF x) as [sx | sx | | sx mx ex];
    simpl; intros Ht Hx; subst; try contradiction; try discriminate;
    try reflexivity; destruct st; try discriminate; reflexivity.
Qed.

(** A timeout of zero or less has been reached at any later reading of
    the clock. *)
Lemma timeout_not_above_zero_is_reached (timeout : float) (a b : Time) :
  (timeout <=? 0)%float = true ->
  to_nsec b <= to_nsec a ->
  (timeout <=? elapsed_sec a b)%float = true.
Proof.
  intros Hto Hclock.
  apply leb_not_below_zero; [assumption |].
  now apply elapsed_sec_not_below_zero.
Qed.

(** At the edge of the timeout the comparison is the one of binary64:
    [0.1] is reached after exactly 100 ms, [1.118] is not reached after
    exactly 1.118 s. *)
Example timeout_edges :
  (0.1 <=? elapsed_sec {| secs := 0; nsecs := 100000000 |}
             {| secs := 0; nsecs := 0 |})%float = true
  /\ (1.118 <=? elapsed_sec {| secs := 1; nsecs := 118000000 |}
                  {| secs := 0; nsecs := 0 |})%float = false.
Proof. split; reflexivity. Qed.

End ElapsedFacts.

(** * More properties of [_set_service_request] and its wrappers *)

Module ConfirmationFacts.
Import Py Py.Notations Mavros WaitLoop.

Ltac run_loop :=
  unfold bind, emit, ask, act, ret, spin, outcome, trace, final; simpl.

Ltac run_call :=
  unfold _set_service_request, try_except, loop_entry;
  run_loop.

Section Loop.
Context {W : Type} {ros : Rospy W}.
Variables (name : string) (cond : W -> Outcome bool * W).
Variables (start_time : Time) (timeout : float).

Local Abbreviation loop :=
  (fun fuel => wait_for_updated_state fuel name cond start_time timeout).

(** A pass that goes round is followed by the rest of the loop. *)
Lemma wait_round (fuel : nat) (w : W) :
  goes_round cond start_time timeout w = true ->
  loop (S fuel) w
  = (outcome (loop fuel (after_pass cond w)),
     final (loop fuel (after_pass cond w)),
     pass_events ++ trace (loop fuel (after_pass cond w))).
Proof.
  unfold goes_round, after_pass. simpl. run_loop.
  destruct (cond w) as [[[] | e |] w1]; simpl; try discriminate.
  destruct (is_shutdown w1) as [[] w2]; simpl; try discriminate.
  destruct (now w2) as [t w3]; simpl.
  destruct (PrimFloat.leb timeout (elapsed_sec t start_time));
    simpl; try discriminate.
  intros _.
  destruct (wait_for_updated_state fuel name cond start_time timeout w3)
    as [[r s] tr].
  reflexivity.
Qed.

Lemma wait_confirms_after (k : nat) :
  forall fuel w,
    (forall j, (j < k)%nat ->
               goes_round cond start_time timeout (after_passes cond j w)
               = true) ->
    fst (cond (after_passes cond k w)) = Returns true ->
    (k < fuel)%nat ->
    loop fuel w
    = (Returns true, snd (cond (after_passes cond k w)),
       passes_events k ++ [ev_cond]).
Proof.
  induction k as [| k IH]; intros fuel w Hround Hcond Hfuel;
    (destruct fuel as [| fuel]; [lia |]).
  - simpl in *. run_loop.
    destruct (cond w) as [c w1]; simpl in *; subst c. reflexivity.
  - rewrite wait_round by (apply (Hround 0%nat); lia).
    rewrite (IH fuel (after_pass cond w)); [| | assumption | lia].
    + reflexivity.
    + intros j Hj. apply (Hround (S j)). lia.
Qed.

Lemma wait_times_out_after (k : nat) :
  forall fuel w,
    (forall j, (j < k)%nat ->
               goes_round cond start_time timeout (after_passes cond j w)
               = true) ->
    times_out cond start_time timeout (after_passes cond k w) = true ->
    (k < fuel)%nat ->
    loop fuel w
    = (Returns false, after_pass cond (after_passes cond k w),
       passes_events k
       ++ pass_events
       ++ [ev_log LFatal
             "Call to service %s successful but not response..." name]).
Proof.
  induction k as [| k IH]; intros fuel w Hround Hout Hfuel;
    (destruct fuel as [| fuel]; [lia |]).
  - simpl in *. revert Hout. unfold times_out, after_pass. run_loop.
    destruct (cond w) as [[[] | e |] w1]; simpl; try discriminate.
    destruct (is_shutdown w1) as [[] w2]; simpl; try discriminate.
    destruct (now w2) as [t w3]; simpl.
    destruct (PrimFloat.leb timeout (elapsed_sec t start_time));
      simpl; try discriminate.
    reflexivity.
  - rewrite wait_round by (apply (Hround 0%nat); lia).
    rewrite (IH fuel (after_pass cond w)); [| | assumption | lia].
    + reflexivity.
    + intros j Hj. apply (Hround (S j)). lia.
Qed.

(** The loop makes no service call. *)
Lemma wait_calls_no_service (fuel : nat) :
  forall w, filter is_srv (trace (loop fuel w)) = [].
Proof.
  induction fuel as [| fuel IH]; intros w; simpl.
  - reflexivity.
  - run_loop.
    destruct (cond w) as [[[] | e |] w1]; simpl; try reflexivity.
    destruct (is_shutdown w1) as [[] w2]; simpl; try reflexivity.
    destruct (now w2) as [t w3]; simpl.
    destruct (PrimFloat.leb timeout (elapsed_sec t start_time));
      simpl; try reflexivity.
    specialize (IH w3). unfold trace in IH.
    destruct (wait_for_updated_state fuel name cond start_time timeout w3)
      as [[r s] tr].
    exact IH.
Qed.

(** A warning or fatal line is logged by the loop exactly when it returns
    [False]. *)
Lemma wait_logs_failure (fuel : nat) :
  forall w b,
    outcome (loop fuel w) = Returns b ->
    existsb is_failure_log (trace (loop fuel w)) = negb b.
Proof.
  induction fuel as [| fuel IH]; intros w b; simpl.
  - discriminate.
  - run_loop.
    destruct (cond w) as [[[] | e |] w1]; simpl; try discriminate;
      [now intros [= <-] |].
    destruct (is_shutdown w1) as [[] w2]; simpl; [now intros [= <-] |].
    destruct (now w2) as [t w3]; simpl.
    destruct (PrimFloat.leb timeout (elapsed_sec t start_time));
      simpl; [now intros [= <-] |].
    specialize (IH w3 b). unfold outcome, trace in IH.
    destruct (wait_for_updated_state fuel name cond start_time timeout w3)
      as [[r s] tr].
    exact IH.
Qed.

(** What the loop raises, the predicate has raised. *)
Lemma wait_raises_from_cond (fuel : nat) :
  forall w e,
    outcome (loop fuel w) = Raises e ->
    exists w', fst (cond w') = Raises e.
Proof.
  induction fuel as [| fuel IH]; intros w e; simpl.
  - discriminate.
  - run_loop.
    destruct (cond w) as [[[] | e' |] w1] eqn:Hc; simpl; try discriminate.
    + destruct (is_shutdown w1) as [[] w2]; simpl; try discriminate.
      destruct (now w2) as [t w3]; simpl.
      destruct (PrimFloat.leb timeout (elapsed_sec t start_time));
        simpl; try discriminate.
      specialize (IH w3 e). unfold outcome in IH.
      destruct (wait_for_updated_state fuel name cond start_time timeout w3)
        as [[r s] tr].
      exact IH.
    + intros [= ->]. exists w. now rewrite Hc.
Qed.

End Loop.

Section Call.
Context {W : Type} {ros : Rospy W} {Req : Type}.
Variables (name : string) (cond : W -> Outcome bool * W).
Variables (srv : Req -> W -> Outcome bool * W) (req : Req).

(** X1. A call of [_set_service_request] invokes the service at most once,
    whatever the environment does: the wait loop never repeats the
    request. *)
Theorem service_called_at_most_once (fuel : nat) (wait_time timeout : float)
    (w : W) :
  (List.length
     (filter is_srv
        (trace (_set_service_request fuel name cond srv req wait_time
                  timeout w))) <= 1)%nat.
Proof.
  run_call.
  destruct (now w) as [t0 w1]; simpl.
  destruct (cond w1) as [[[] | e |] w2]; simpl; try lia.
  destruct (srv req w2) as [[[] | e |] w3]; simpl; try lia.
  - pose proof (wait_calls_no_service name cond t0 timeout fuel w3) as Hno.
    unfold trace in Hno.
    destruct (wait_for_updated_state fuel name cond t0 timeout w3)
      as [[r s] tr]; simpl in *.
    destruct r as [b | e |]; simpl; try (rewrite Hno; simpl; lia).
    destruct (is_ServiceException e); simpl;
      [rewrite filter_app, Hno; simpl; lia | rewrite Hno; simpl; lia].
  - destruct (is_ServiceException e); simpl; lia.
Qed.

(** X2. When the predicate is false on entry, the service accepts, the
    first [k] passes of the wait loop go round (predicate false, no
    shutdown, less than [timeout] elapsed) and the predicate is true at
    the next evaluation, the call returns [True] after [k + 1] polls in
    the loop, given fuel for them. *)
Theorem confirmed_after_passes (fuel k : nat) (wait_time timeout : float)
    (w : W) :
  fst (cond (snd (now w))) = Returns false ->
  fst (srv req (snd (cond (snd (now w))))) = Returns true ->
  (forall j, (j < k)%nat ->
             goes_round cond (fst (now w)) timeout
               (after_passes cond j (loop_entry cond srv req w)) = true) ->
  fst (cond (after_passes cond k (loop_entry cond srv req w)))
  = Returns true ->
  (k < fuel)%nat ->
  _set_service_request fuel name cond srv req wait_time timeout w
  = (Returns true,
     snd (cond (after_passes cond k (loop_entry cond srv req w))),
     [ev_now; ev_cond; ev_srv;
      ev_log LInfo "Service %s request successful!" name]
     ++ passes_events k ++ [ev_cond]).
Proof.
  intros Hc Hs Hround Hk Hfuel.
  pose proof (wait_confirms_after name cond (fst (now w)) timeout k fuel
                (loop_entry cond srv req w) Hround Hk Hfuel) as Hloop.
  revert Hloop. run_call.
  destruct (now w) as [t0 w1]; simpl in *.
  destruct (cond w1) as [c w2]; simpl in *; subst c; simpl.
  destruct (srv req w2) as [r w3]; simpl in *; subst r; simpl.
  intros ->. reflexivity.
Qed.

(** X3. When the predicate is false on entry, the service accepts, the
    first [k] passes go round and in the next pass the clock reading is
    [timeout] or more after the start, the call returns [False] and its
    last act is the fatal log line. *)
Theorem timed_out_after_passes (fuel k : nat) (wait_time timeout : float)
    (w : W) :
  fst (cond (snd (now w))) = Returns false ->
  fst (srv req (snd (cond (snd (now w))))) = Returns true ->
  (forall j, (j < k)%nat ->
             goes_round cond (fst (now w)) timeout
               (after_passes cond j (loop_entry cond srv req w)) = true) ->
  times_out cond (fst (now w)) timeout
    (after_passes cond k (loop_entry cond srv req w)) = true ->
  (k < fuel)%nat ->
  _set_service_request fuel name cond srv req wait_time timeout w
  = (Returns false,
     after_pass cond (after_passes cond k (loop_entry cond srv req w)),
     [ev_now; ev_cond; ev_srv;
      ev_log LInfo "Service %s request successful!" name]
     ++ passes_events k ++ pass_events
     ++ [ev_log LFatal
           "Call to service %s successful but not response..." name]).
Proof.
  intros Hc Hs Hround Hk Hfuel.
  pose proof (wait_times_out_after name cond (fst (now w)) timeout k fuel
                (loop_entry cond srv req w) Hround Hk Hfuel) as Hloop.
  revert Hloop. run_call.
  destruct (now w) as [t0 w1]; simpl in *.
  destruct (cond w1) as [c w2]; simpl in *; subst c; simpl.
  destruct (srv req w2) as [r w3]; simpl in *; subst r; simpl.
  intros ->. reflexivity.
Qed.

(** X4. Whenever the call returns, a warning or fatal line has been logged
    exactly when the result is [False]: no failure is silent, and no
    success is logged as a failure. *)
Theorem failure_logged_iff_false (fuel : nat) (wait_time timeout : float)
    (w : W) (b : bool) :
  outcome (_set_service_request fuel name cond srv req wait_time timeout w)
  = Returns b ->
  existsb is_failure_log
    (trace (_set_service_request fuel name cond srv req wait_time
              timeout w))
  = negb b.
Proof.
  run_call.
  destruct (now w) as [t0 w1]; simpl.
  destruct (cond w1) as [[[] | e |] w2]; simpl; try discriminate;
    [now intros [= <-] |].
  destruct (srv req w2) as [[[] | e |] w3]; simpl; try discriminate.
  - pose proof (wait_logs_failure name cond t0 timeout fuel w3) as Hlog.
    unfold outcome, trace in Hlog.
    destruct (wait_for_updated_state fuel name cond t0 timeout w3)
      as [[r s] tr]; simpl in *.
    destruct r as [b' | e |]; simpl; try discriminate.
    + intros [= <-]. now apply Hlog.
    + destruct (is_ServiceException e); simpl; try discriminate.
      intros [= <-]. rewrite existsb_app. simpl. apply orb_true_r.
  - now intros [= <-].
  - destruct (is_ServiceException e); simpl; try discriminate.
    now intros [= <-].
Qed.

(** X5. The call raises nothing of its own: an exception that leaves it was
    raised by the first evaluation of the predicate, or it is no
    [rospy.ServiceException] and was raised by the service call or by a
    later evaluation of the predicate. *)
Theorem raises_only_what_it_was_given (fuel : nat) (wait_time timeout : float)
    (w : W) (e : Exn) :
  outcome (_set_service_request fuel name cond srv req wait_time timeout w)
  = Raises e ->
  fst (cond (snd (now w))) = Raises e
  \/ (is_ServiceException e = false
      /\ (fst (srv req (snd (cond (snd (now w))))) = Raises e
          \/ exists w', fst (cond w') = Raises e)).
Proof.
  run_call.
  destruct (now w) as [t0 w1]; simpl.
  destruct (cond w1) as [[[] | e' |] w2]; simpl; try discriminate.
  - destruct (srv req w2) as [[[] | e' |] w3]; simpl; try discriminate.
    + pose proof (wait_raises_from_cond name cond t0 timeout fuel w3)
        as Hfrom.
      unfold outcome in Hfrom.
      destruct (wait_for_updated_state fuel name cond t0 timeout w3)
        as [[r s] tr]; simpl in *.
      destruct r as [b' | e' |]; simpl; try discriminate.
      destruct (is_ServiceException e') eqn:Hse; simpl; try discriminate.
      intros [= ->]. right. split; [assumption |]. right. now apply Hfrom.
    + destruct (is_ServiceException e') eqn:Hse; simpl; try discriminate.
      intros [= ->]. right. split; [assumption |]. now left.
  - intros [= ->]. now left.
Qed.

(** X6. A timeout of zero or less does not skip the wait: with the service
    accepted, the predicate is evaluated once more, and if it is still
    false (no shutdown, the clock not running backwards) the call returns
    [False] after that single pass. *)
Theorem zero_timeout_polls_once (fuel : nat) (wait_time timeout : float)
    (w : W) :
  (timeout <=? 0)%float = true ->
  fst (cond (snd (now w))) = Returns false ->
  fst (srv req (snd (cond (snd (now w))))) = Returns true ->
  fst (cond (loop_entry cond srv req w)) = Returns false ->
  fst (is_shutdown (snd (cond (loop_entry cond srv req w)))) = false ->
  (to_nsec (fst (now w))
   <= to_nsec (fst (now (snd (is_shutdown
                                (snd (cond (loop_entry cond srv req w))))))))
  ->
  outcome (_set_service_request (S fuel) name cond srv req wait_time
             timeout w) = Returns false
  /\ trace (_set_service_request (S fuel) name cond srv req wait_time
              timeout w)
     = [ev_now; ev_cond; ev_srv;
        ev_log LInfo "Service %s request successful!" name;
        ev_cond; ev_is_shutdown; ev_now;
        ev_log LFatal "Call to service %s successful but not response..."
          name].
Proof.
  intros Hto Hc Hs Hc' Hdown Hclock.
  assert (Hout : times_out cond (fst (now w)) timeout
                   (after_passes cond 0 (loop_entry cond srv req w))
                 = true).
  { unfold times_out. simpl. rewrite Hc', Hdown. simpl.
    now apply ElapsedFacts.timeout_not_above_zero_is_reached. }
  pose proof (wait_times_out_after name cond (fst (now w)) timeout 0
                (S fuel) (loop_entry cond srv req w)
                (fun j Hj => match Nat.nlt_0_r j Hj with end) Hout
                (Nat.lt_0_succ fuel)) as Hloop.
  revert Hloop. run_call.
  destruct (now w) as [t0 w1]; simpl in *.
  destruct (cond w1) as [c w2]; simpl in *; subst c; simpl.
  destruct (srv req w2) as [r w3]; simpl in *; subst r; simpl.
  intros ->. split; reflexivity.
Qed.

End Call.

Section TakeoffLanding.
Import Telemetry TakeoffLand.
Context {W : Type} {ros : Rospy W} {tol : RospyTOL W}.

(** X7. [_set_takeoff_request] and [_set_land_request] read [self._gps]
    while they build the request, before [_set_service_request] is
    entered: with no fix received they raise [AttributeError] at once,
    with no clock reading, no evaluation of the predicate and no service
    call, also when the vehicle is already in the requested mode. *)
Theorem takeoff_and_landing_need_a_fix (fuel : nat) (alt : float)
    (wait_time timeout : float) (w : W) :
  fst (self_gps w) = None ->
  _set_takeoff_request fuel alt wait_time timeout w
  = (Raises AttributeError, snd (self_gps w), [])
  /\ _set_land_request fuel alt wait_time timeout w
     = (Raises AttributeError, snd (self_gps w), []).
Proof.
  intros Hfix.
  unfold _set_takeoff_request, _set_land_request, gps_field, bind, act.
  destruct (self_gps w) as [g w1]; simpl in *; subst g.
  split; reflexivity.
Qed.

End TakeoffLanding.

Import Scripted Rig.

Lemma confirmed_after_passes_witness :
  fst (armed_is true (snd (now (Rig.arming_late 3)))) = Returns false
  /\ outcome (_set_arming_request 10 true default_wait_time default_timeout
                (Rig.arming_late 3)) = Returns true
  /\ trace (_set_arming_request 10 true default_wait_time default_timeout
              (Rig.arming_late 3))
     = [ev_now; ev_cond; ev_srv;
        ev_log LInfo "Service %s request successful!" "/mavros/cmd/arming";
        ev_cond; ev_is_shutdown; ev_now;
        ev_cond; ev_is_shutdown; ev_now;
        ev_cond].
Proof.
  split; [reflexivity |].
  unfold _set_arming_request.
  rewrite (confirmed_after_passes "/mavros/cmd/arming" (armed_is true)
             arming_client true 10 2 default_wait_time default_timeout
             (Rig.arming_late 3)).
  - split; reflexivity.
  - reflexivity.
  - reflexivity.
  - intros j Hj. destruct j as [| [| j]]; [reflexivity | reflexivity | lia].
  - reflexivity.
  - lia.
Defined.

Lemma timed_out_after_passes_witness :
  times_out (armed_is true) (fst (now never_armed)) default_timeout
    (after_passes (armed_is true) 4
       (loop_entry (armed_is true) arming_client true never_armed)) = true
  /\ outcome (_set_arming_request 10 true default_wait_time default_timeout
                never_armed) = Returns false.
Proof.
  split; [reflexivity |].
  unfold _set_arming_request.
  rewrite (timed_out_after_passes "/mavros/cmd/arming" (armed_is true)
             arming_client true 10 4 default_wait_time default_timeout
             never_armed).
  - reflexivity.
  - reflexivity.
  - reflexivity.
  - intros j Hj.
    destruct j as [| [| [| [| j]]]];
      [reflexivity | reflexivity | reflexivity | reflexivity | lia].
  - reflexivity.
  - lia.
Defined.

Lemma failure_logged_iff_false_witness :
  outcome (_set_arming_request 5 true default_wait_time default_timeout
             arming_unreachable) = Returns false
  /\ existsb is_failure_log
       (trace (_set_arming_request 5 true default_wait_time default_timeout
                 arming_unreachable)) = true.
Proof.
  split; [reflexivity |].
  apply (failure_logged_iff_false "/mavros/cmd/arming" (armed_is true)
           arming_client true 5 default_wait_time default_timeout
           arming_unreachable false).
  reflexivity.
Defined.

Lemma raises_only_what_it_was_given_witness :
  outcome (_set_mode_request 5 "OFFBOARD" default_wait_time default_timeout
             no_telemetry) = Raises AttributeError
  /\ (fst (mode_is "OFFBOARD" (snd (now no_telemetry)))
      = Raises AttributeError
      \/ (is_ServiceException AttributeError = false
          /\ (fst (set_mode_client (0, "OFFBOARD"%string)
                     (snd (mode_is "OFFBOARD" (snd (now no_telemetry)))))
              = Raises AttributeError
              \/ exists w' : Script,
                   fst (mode_is "OFFBOARD" w') = Raises AttributeError))).
Proof.
  split; [reflexivity |].
  apply (raises_only_what_it_was_given "/mavros/set_mode"
           (mode_is "OFFBOARD") set_mode_client (0, "OFFBOARD"%string) 5
           default_wait_time default_timeout no_telemetry AttributeError).
  reflexivity.
Defined.

Lemma zero_timeout_polls_once_witness :
  (0 <=? 0)%float = true
  /\ outcome (_set_arming_request 3 true default_wait_time 0%float
                never_armed)
     = Returns false.
Proof.
  split; [reflexivity |].
  apply (zero_timeout_polls_once "/mavros/cmd/arming" (armed_is true)
           arming_client true 2 default_wait_time 0%float never_armed).
  - reflexivity.
  - reflexivity.
  - reflexivity.
  - reflexivity.
  - reflexivity.
  - vm_compute. discriminate.
Defined.

Lemma takeoff_and_landing_need_a_fix_witness :
  fst (TakeoffLand.self_gps Rig.taking_off_without_fix) = None
  /\ fst (mode_is "AUTO.TAKEOFF" (snd (now Rig.taking_off_without_fix)))
     = Returns true
  /\ outcome (TakeoffLand._set_takeoff_request 5 10%float default_wait_time
                default_timeout Rig.taking_off_without_fix)
     = Raises AttributeError.
Proof.
  split; [reflexivity | split; [reflexivity |]].
  destruct (takeoff_and_landing_need_a_fix 5 10%float default_wait_time
              default_timeout Rig.taking_off_without_fix) as [Htakeoff _];
    [reflexivity |].
  unfold outcome. rewrite Htakeoff. reflexivity.
Defined.

End ConfirmationFacts.

(** * The telemetry cache *)

Module TelemetryFacts.
Import Py Mavros Telemetry.

Lemma deliver_app (ns ms : list Notification) (self : Cache) :
  deliver (ns ++ ms) self = deliver ms (deliver ns self).
Proof. apply fold_left_app. Qed.

(** A message of another topic leaves what is held for a topic as it
    is. *)
Lemma callback_other_topic (n : Notification) (t : Topic) (self : Cache) :
  Topic_eqb (topic n) t = false ->
  read t (callback n self) = read t self.
Proof. destruct n, t; simpl; intros Hne; try discriminate; reflexivity. Qed.

Lemma callback_own_topic (n : Notification) (self : Cache) :
  read (topic n) (callback n self) = Returns n.
Proof. destruct n; reflexivity. Qed.

Lemma deliver_other_topics (t : Topic) (ns : list Notification) :
  forall self,
    none_on t ns = true ->
    read t (deliver ns self) = read t self.
Proof.
  induction ns as [| n ns IH]; intros self Hno; simpl in *.
  - reflexivity.
  - apply andb_prop in Hno as [Hn Hns].
    unfold deliver in IH. rewrite IH by assumption.
    apply callback_other_topic. now destruct (Topic_eqb (topic n) t).
Qed.

(** X8. What the object holds for a topic ([state], [pose], [gps], or the
    estimator status) is the last message that arrived on that topic,
    whatever arrived on the other topics before or after it. *)
Theorem latest_message_wins (earlier later : list Notification)
    (n : Notification) (self : Cache) :
  none_on (topic n) later = true ->
  read (topic n) (deliver (earlier ++ n :: later) self) = Returns n.
Proof.
  intros Hlater. rewrite deliver_app.
  change (deliver (n :: later) (deliver earlier self))
    with (deliver later (callback n (deliver earlier self))).
  rewrite deliver_other_topics by assumption.
  apply callback_own_topic.
Qed.

(** X9. Until the first message of a topic has arrived, reading what the
    object holds for it raises [AttributeError], whatever has arrived on
    the other topics. *)
Theorem unset_until_first_message (t : Topic) (ns : list Notification) :
  none_on t ns = true ->
  read t (deliver ns unset) = Raises AttributeError.
Proof.
  intros Hno. rewrite deliver_other_topics by assumption.
  destruct t; reflexivity.
Qed.

Lemma latest_message_wins_witness :
  none_on (topic (on_state Scripted.disarmed)) [on_pose Rig.a_pose] = true
  /\ read mavros_state
       (deliver [on_gps Rig.a_fix; on_state Scripted.disarmed;
                 on_pose Rig.a_pose] unset)
     = Returns (on_state Scripted.disarmed).
Proof.
  split; [reflexivity |].
  apply (latest_message_wins [on_gps Rig.a_fix] [on_pose Rig.a_pose]
           (on_state Scripted.disarmed) unset).
  reflexivity.
Defined.

Lemma unset_until_first_message_witness :
  none_on mavros_state [on_gps Rig.a_fix; on_pose Rig.a_pose] = true
  /\ read mavros_state (deliver [on_gps Rig.a_fix; on_pose Rig.a_pose] unset)
     = Raises AttributeError.
Proof.
  split; [reflexivity |].
  apply (unset_until_first_message mavros_state
           [on_gps Rig.a_fix; on_pose Rig.a_pose]).
  reflexivity.
Defined.

End TelemetryFacts.

(** * More properties of [_reset_pose_estimator] *)

Module EstimatorPassFacts.
Import Py Mavros Telemetry EstimatorPasses.

(** One pass of the loop. *)
Lemma await_pass (reads : nat -> nat -> EstimatorStatus)
    (time_stamp : Time) (fuel i0 : nat) :
  await_valid_estimate reads time_stamp (S fuel) i0
  = if pass_breaks reads time_stamp i0 then Returns i0
    else await_valid_estimate reads time_stamp fuel (S i0).
Proof.
  unfold pass_breaks. simpl.
  destruct (Time_eqb (stamp (reads i0 0%nat)) time_stamp); simpl;
    [reflexivity |].
  destruct (pred_hor_position_rel (reads i0 1%nat)); simpl;
    [| reflexivity].
  destruct (pred_hor_position_abs (reads i0 2%nat)); reflexivity.
Qed.

Lemma await_finds_first (reads : nat -> nat -> EstimatorStatus)
    (time_stamp : Time) (fuel : nat) :
  forall i0 i,
    (i0 <= i < i0 + fuel)%nat ->
    pass_breaks reads time_stamp i = true ->
    (forall j, (i0 <= j < i)%nat -> pass_breaks reads time_stamp j = false) ->
    await_valid_estimate reads time_stamp fuel i0 = Returns i.
Proof.
  induction fuel as [| fuel IH]; intros i0 i Hi Hbreak Hbefore.
  - lia.
  - rewrite await_pass.
    destruct (Nat.eq_dec i0 i) as [-> | Hne].
    + now rewrite Hbreak.
    + rewrite (Hbefore i0) by lia.
      apply IH; [lia | assumption |].
      intros j Hj. apply Hbefore. lia.
Qed.

(** X10. Read by read, the wait ends at pass [i] exactly when [i] is the
    first pass whose reads find a time stamp other than the one read
    before the restart, then the first flag set, then the second flag set,
    and the loop is given the passes to reach it. *)
Theorem wait_ends_at_first_breaking_pass
    (reads : nat -> nat -> EstimatorStatus) (time_stamp : Time)
    (fuel i0 i : nat) :
  await_valid_estimate reads time_stamp fuel i0 = Returns i
  <-> ((i0 <= i < i0 + fuel)%nat
       /\ pass_breaks reads time_stamp i = true
       /\ forall j, (i0 <= j < i)%nat ->
                    pass_breaks reads time_stamp j = false).
Proof.
  split.
  - revert i0. induction fuel as [| fuel IH]; intros i0 Hret.
    + discriminate.
    + rewrite await_pass in Hret.
      destruct (pass_breaks reads time_stamp i0) eqn:Hhere.
      * injection Hret as <-.
        split; [lia | split; [assumption | intros j Hj; lia]].
      * destruct (IH _ Hret) as (Hi & Hbreak & Hbefore).
        split; [lia | split; [assumption |]].
        intros j Hj. destruct (Nat.eq_dec j i0) as [-> | Hne];
          [assumption | apply Hbefore; lia].
  - intros (Hi & Hbreak & Hbefore). now apply await_finds_first.
Qed.

(** X11. [_reset_pose_estimator] returns once both estimator processes
    have been run and a pass of the wait takes the [break], given fuel for
    the passes before it. *)
Theorem reset_pose_estimator_returns (est : string)
    (before : EstimatorStatus) (procs : list string -> Outcome Z)
    (reads : nat -> nat -> EstimatorStatus) (stop_code start_code : Z)
    (fuel n : nat) :
  procs [(px4_lib ++ est)%string; "stop"%string] = Returns stop_code ->
  procs [(px4_lib ++ est)%string; "start"%string] = Returns start_code ->
  (forall j, (j < n)%nat -> pass_breaks reads (stamp before) j = false) ->
  pass_breaks reads (stamp before) n = true ->
  (n < fuel)%nat ->
  _reset_pose_estimator fuel
    {| pose_est_ := Some est;
       est_status_before := Some before;
       run_process := procs;
       est_status_at := reads |} = Returns tt.
Proof.
  intros Hstop Hstart Hbefore Hbreak Hfuel.
  unfold _reset_pose_estimator, popen_wait.
  cbn [pose_est_ est_status_before run_process est_status_at].
  rewrite Hstop, Hstart.
  rewrite (await_finds_first reads (stamp before) fuel 0 n);
    [reflexivity | lia | assumption |].
  intros j Hj. apply Hbefore. lia.
Qed.

Lemma await_raises_nothing (reads : nat -> nat -> EstimatorStatus)
    (time_stamp : Time) (fuel : nat) :
  forall i0 e, await_valid_estimate reads time_stamp fuel i0 <> Raises e.
Proof.
  induction fuel as [| fuel IH]; intros i0 e.
  - discriminate.
  - rewrite await_pass. destruct (pass_breaks reads time_stamp i0);
      [discriminate | apply IH].
Qed.

(** X12. [_reset_pose_estimator] raises in four cases only:
    [self.pose_est_] is unset, [self._est_status] is unset, running the
    stop command raises, or the stop command has returned and running the
    start command raises. The wait itself raises nothing. *)
Theorem reset_pose_estimator_raises_only (fuel : nat) (run : EstimatorRun)
    (e : Exn) :
  _reset_pose_estimator fuel run = Raises e ->
  (pose_est_ run = None /\ e = AttributeError)
  \/ (est_status_before run = None /\ e = AttributeError)
  \/ (exists est,
        pose_est_ run = Some est
        /\ (run_process run [(px4_lib ++ est)%string; "stop"%string]
            = Raises e
            \/ ((exists code,
                   run_process run [(px4_lib ++ est)%string; "stop"%string]
                   = Returns code)
                /\ run_process run [(px4_lib ++ est)%string; "start"%string]
                   = Raises e))).
Proof.
  unfold _reset_pose_estimator, popen_wait.
  destruct (pose_est_ run) as [est |]; [| intros [= <-]; now left].
  destruct (est_status_before run) as [msg |];
    [| intros [= <-]; right; now left].
  intros Hraise. right. right. exists est. split; [reflexivity |].
  destruct (run_process run [(px4_lib ++ est)%string; "stop"%string])
    as [code | e' |]; [| injection Hraise as ->; now left | discriminate].
  right. split; [now exists code |].
  destruct (run_process run [(px4_lib ++ est)%string; "start"%string])
    as [code' | e' |]; [| now injection Hraise as -> | discriminate].
  destruct (await_valid_estimate (est_status_at run) (stamp msg) fuel 0)
    eqn:Hwait; try discriminate.
  injection Hraise as ->. now apply await_raises_nothing in Hwait.
Qed.

(** X13. With the parameter [mavros_gym/px4-est] set to anything but
    [ekf2] or [lpe], [__init__] leaves [self.pose_est_] unassigned and
    [_reset_pose_estimator] raises [AttributeError], whatever the
    telemetry and the processes would do. *)
Theorem unknown_estimator_cannot_be_reset (est : string) (fuel : nat)
    (before : option EstimatorStatus) (procs : list string -> Outcome Z)
    (reads : nat -> nat -> EstimatorStatus) :
  est <> "ekf2"%string ->
  est <> "lpe"%string ->
  _reset_pose_estimator fuel
    {| pose_est_ := select_pose_est est;
       est_status_before := before;
       run_process := procs;
       est_status_at := reads |} = Raises AttributeError.
Proof.
  intros Hekf Hlpe. unfold select_pose_est.
  apply String.eqb_neq in Hekf, Hlpe. rewrite Hekf, Hlpe. reflexivity.
Qed.

Lemma reset_pose_estimator_returns_witness :
  pass_breaks (per_pass (Rig.valid_from 2)) (Scripted.at_sec 10) 2 = true
  /\ _reset_pose_estimator 5
       (Scripted.estimator_run (Scripted.sample 10 true true)
          (per_pass (Rig.valid_from 2))) = Returns tt.
Proof.
  split; [reflexivity |].
  apply (reset_pose_estimator_returns "px4-ekf2"
           (Scripted.sample 10 true true) (fun _ => Returns 0)
           (per_pass (Rig.valid_from 2)) 0 0 5 2).
  - reflexivity.
  - reflexivity.
  - intros j Hj. destruct j as [| [| j]]; [reflexivity | reflexivity | lia].
  - reflexivity.
  - lia.
Defined.

Lemma reset_pose_estimator_raises_only_witness :
  _reset_pose_estimator 5 Rig.no_executable = Raises (PyException "OSError")
  /\ ((pose_est_ Rig.no_executable = None
       /\ PyException "OSError" = AttributeError)
      \/ (est_status_before Rig.no_executable = None
          /\ PyException "OSError" = AttributeError)
      \/ (exists est,
            pose_est_ Rig.no_executable = Some est
            /\ (run_process Rig.no_executable
                  [(px4_lib ++ est)%string; "stop"%string]
                = Raises (PyException "OSError")
                \/ ((exists code,
                       run_process Rig.no_executable
                         [(px4_lib ++ est)%string; "stop"%string]
                       = Returns code)
                    /\ run_process Rig.no_executable
                         [(px4_lib ++ est)%string; "start"%string]
                       = Raises (PyException "OSError"))))).
Proof.
  split; [reflexivity |].
  apply (reset_pose_estimator_raises_only 5 Rig.no_executable
           (PyException "OSError")).
  reflexivity.
Defined.

Lemma unknown_estimator_cannot_be_reset_witness :
  select_pose_est "ekf3" = None
  /\ _reset_pose_estimator 5
       {| pose_est_ := select_pose_est "ekf3";
          est_status_before := Some (Scripted.sample 10 true true);
          run_process := fun _ => Returns 0;
          est_status_at := per_pass Scripted.clock_went_back |}
     = Raises AttributeError.
Proof.
  split; [reflexivity |].
  apply (unknown_estimator_cannot_be_reset "ekf3" 5
           (Some (Scripted.sample 10 true true)) (fun _ => Returns 0)
           (per_pass Scripted.clock_went_back));
    discriminate.
Defined.

End EstimatorPassFacts.

(** * More properties of the AirSim handler *)

Module HandlerFacts.
Import Py Py.Notations Airsim AirsimFull.
Local Open Scope float_scope.

Ltac run_method :=
  unfold run_world_method, run_command, reset, pause, unpause, client_arm,
    client_takeoff, client_land, client_cmd_vel, client_state, call,
    try_except, bind, emit, gets, modify, ret, outcome, trace, final;
  simpl.

Ltac step_call :=
  match goal with
  | |- context [invoke ?c ?s] =>
      let r := fresh "r" in
      let s1 := fresh "s" in
      let Hcall := fresh "Hcall" in
      destruct (invoke c s) as [r s1] eqn:Hcall; destruct r; simpl
  | |- context [is_Exception ?e] =>
      let Hexc := fresh "Hexc" in
      destruct (is_Exception e) eqn:Hexc; simpl
  end.

Section Handler.
Context {Obj C : Type} {vendor : MultirotorClient Obj C}.

Local Abbreviation Handler := (AirsimHandler Obj C).

(** A read that returns leaves the flag down and the returned snapshot in
    the cache. *)
Lemma client_state_leaves_cache (h : Handler) (v : PyVal Obj) :
  outcome (client_state h) = Returns v ->
  _new_state (final (client_state h)) = false
  /\ _multirotor_state (final (client_state h)) = v.
Proof.
  run_method. destruct (_new_state h) eqn:Hflag; simpl.
  - step_call; intros [= <-]. split; reflexivity.
  - intros [= <-]. split; [assumption | reflexivity].
Qed.

(** X14. Once [client_state] has returned a snapshot, reading it again
    returns the same snapshot, makes no call to the client and leaves the
    handler as it is, until something raises the flag again. *)
Theorem state_read_twice_asks_once (h : Handler) (v : PyVal Obj) :
  outcome (client_state h) = Returns v ->
  client_state (final (client_state h))
  = (Returns v, final (client_state h), []).
Proof.
  intros Hread. destruct (client_state_leaves_cache h v Hread) as [Hf Hc].
  unfold client_state at 1, bind, gets, ret. rewrite Hf, Hc. reflexivity.
Qed.

(** X15. When the snapshot is stale and [getMultirotorState] raises,
    [client_state] raises the same exception and changes neither the flag
    nor the cached snapshot: the next read asks the client again. *)
Theorem failed_fetch_stays_stale (h : Handler) (e : Exn) :
  _new_state h = true ->
  fst (invoke Client.getMultirotorState (_client h)) = Raises e ->
  outcome (client_state h) = Raises e
  /\ _new_state (final (client_state h)) = true
  /\ _multirotor_state (final (client_state h)) = _multirotor_state h.
Proof.
  intros Hflag Hcall. run_method. rewrite Hflag.
  destruct (invoke Client.getMultirotorState (_client h)) as [r s1].
  simpl in *. subst r. simpl. repeat split. assumption.
Qed.

(** X16. When [simPause(False)] raises an [Exception], [unpause] logs an
    error and returns [None] without raising the flag: the cached snapshot
    is not marked stale. *)
Theorem failed_unpause_marks_nothing (h : Handler) (e : Exn) :
  fst (invoke (Client.simPause false) (_client h)) = Raises e ->
  is_Exception e = true ->
  outcome (unpause h) = Returns tt
  /\ _new_state (final (unpause h)) = _new_state h
  /\ _multirotor_state (final (unpause h)) = _multirotor_state h
  /\ trace (unpause h)
     = [ev_call (Client.simPause false) (Raises e);
        ev_logerr "Failed to unpause simulation."].
Proof.
  intros Hcall Hexc. run_method.
  destruct (invoke (Client.simPause false) (_client h)) as [r s1].
  simpl in *. subst r. simpl. rewrite Hexc. repeat split.
Qed.

(** X17. Whatever the client does, the calls [reset] makes are an initial
    part, at least the first call, of [reset], [enableApiControl(True)],
    [armDisarm(False)]: it never arms the vehicle and never gives up API
    control. *)
Theorem reset_call_sequence (h : Handler) :
  exists n,
    (1 <= n <= 3)%nat
    /\ calls_of (trace (reset h))
       = firstn n [Client.reset; Client.enableApiControl true;
                   Client.armDisarm false].
Proof.
  run_method. repeat step_call;
    first [ exists 3%nat; split; [lia | reflexivity]
          | exists 2%nat; split; [lia | reflexivity]
          | exists 1%nat; split; [lia | reflexivity] ].
Qed.

(** X18. When the client's [reset] raises an [Exception], the handler's
    [reset] logs an error and returns [None] without calling
    [enableApiControl] or [armDisarm]: control is not asserted again. *)
Theorem failed_reset_stops_there (h : Handler) (e : Exn) :
  fst (invoke Client.reset (_client h)) = Raises e ->
  is_Exception e = true ->
  outcome (reset h) = Returns tt
  /\ trace (reset h)
     = [ev_call Client.reset (Raises e);
        ev_logerr "Failed to reset simulation."].
Proof.
  intros Hcall Hexc. run_method.
  destruct (invoke Client.reset (_client h)) as [r s1].
  simpl in *. subst r. simpl. rewrite Hexc. split; reflexivity.
Qed.

(** The commands write neither the flag nor the cached snapshot. *)
Lemma command_keeps_cache (cmd : Command) (h : Handler) :
  _new_state (final (run_command cmd h)) = _new_state h
  /\ _multirotor_state (final (run_command cmd h)) = _multirotor_state h.
Proof. destruct cmd; run_method; repeat step_call; split; reflexivity. Qed.

(** X19. No command marks the cached snapshot stale: with the flag down,
    a read of [client_state] after arm/disarm, take-off, landing or a
    velocity command returns the snapshot cached before the command and
    asks the client nothing. *)
Theorem state_after_command_is_cached (cmd : Command) (h : Handler) :
  _new_state h = false ->
  client_state (final (run_command cmd h))
  = (Returns (_multirotor_state h), final (run_command cmd h), []).
Proof.
  intros Hflag. destruct (command_keeps_cache cmd h) as [Hf Hc].
  unfold client_state, bind, gets, ret. rewrite Hf, Hflag, Hc. reflexivity.
Qed.

(** X20. When a client call made by [reset], [pause] or [unpause] raises
    an [Exception], the method returns [None], the failed call is the
    last one it makes and an error line is the last thing it does. *)
Theorem world_method_failure_is_logged (m : WorldMethod) (h : Handler)
    (c : Client.Call Obj) (e : Exn) :
  In (ev_call c (Raises e)) (trace (run_world_method m h)) ->
  is_Exception e = true ->
  outcome (run_world_method m h) = Returns tt
  /\ exists before msg,
       trace (run_world_method m h)
       = before ++ [ev_call c (Raises e); ev_logerr msg]
       /\ existsb is_logerr before = false.
Proof.
  destruct m; run_method; repeat step_call; intros Hin He;
    repeat (destruct Hin as [Hin | Hin]; try discriminate Hin);
    try contradiction;
    injection Hin as <- <-; try congruence;
    (split; [reflexivity |]).
  all: first
    [ now (eexists [], _)
    | now (eexists [_], _)
    | now (eexists [_; _], _) ].
Qed.

(** X21. [client_cmd_vel] calls the client's [moveByVelocityAsync] with
    the three velocities, the yaw given as a rate and a duration of
    [0.005] seconds, and then [join] on the future that call returned: the
    trace holds these calls with what the client answered, the client is
    left as the last call left it, and when both calls return the method
    returns [None], whatever [join] returned. *)
Theorem cmd_vel_sends_a_yaw_rate (vel_x vel_y vel_z yaw_rate : float)
    (h : Handler) :
  trace (client_cmd_vel vel_x vel_y vel_z yaw_rate h)
  = ev_call
      (Client.moveByVelocityAsync vel_x vel_y vel_z
         {| is_rate := true; yaw_or_rate := yaw_rate |} 0.005)
      (fst (invoke
              (Client.moveByVelocityAsync vel_x vel_y vel_z
                 {| is_rate := true; yaw_or_rate := yaw_rate |} 0.005)
              (_client h)))
    :: match fst (invoke
                    (Client.moveByVelocityAsync vel_x vel_y vel_z
                       {| is_rate := true; yaw_or_rate := yaw_rate |} 0.005)
                    (_client h)) with
       | Returns future =>
           [ev_call (Client.join future)
              (fst (invoke (Client.join future)
                      (snd (invoke
                              (Client.moveByVelocityAsync vel_x vel_y vel_z
                                 {| is_rate := true;
                                    yaw_or_rate := yaw_rate |} 0.005)
                              (_client h)))))]
       | _ => []
       end
  /\ outcome (client_cmd_vel vel_x vel_y vel_z yaw_rate h)
     = match fst (invoke
                    (Client.moveByVelocityAsync vel_x vel_y vel_z
                       {| is_rate := true; yaw_or_rate := yaw_rate |} 0.005)
                    (_client h)) with
       | Returns future =>
           match fst (invoke (Client.join future)
                        (snd (invoke
                                (Client.moveByVelocityAsync vel_x vel_y
                                   vel_z
                                   {| is_rate := true;
                                      yaw_or_rate := yaw_rate |} 0.005)
                                (_client h)))) with
           | Returns _ => Returns VNone
           | Raises e => Raises e
           | Spins => Spins
           end
       | Raises e => Raises e
       | Spins => Spins
       end
  /\ final (client_cmd_vel vel_x vel_y vel_z yaw_rate h)
     = set_client
         match fst (invoke
                      (Client.moveByVelocityAsync vel_x vel_y vel_z
                         {| is_rate := true; yaw_or_rate := yaw_rate |}
                         0.005)
                      (_client h)) with
         | Returns future =>
             snd (invoke (Client.join future)
                    (snd (invoke
                            (Client.moveByVelocityAsync vel_x vel_y vel_z
                               {| is_rate := true;
                                  yaw_or_rate := yaw_rate |} 0.005)
                            (_client h))))
         | _ =>
             snd (invoke
                    (Client.moveByVelocityAsync vel_x vel_y vel_z
                       {| is_rate := true; yaw_or_rate := yaw_rate |}
                       0.005)
                    (_client h))
         end h.
Proof.
  run_method.
  destruct (invoke
              (Client.moveByVelocityAsync vel_x vel_y vel_z
                 {| is_rate := true; yaw_or_rate := yaw_rate |} 0.005)
              (_client h)) as [r s1].
  destruct r as [future | e |]; simpl.
  - destruct (invoke (Client.join future) s1) as [r' s2].
    destruct r'; repeat split.
  - repeat split.
  - repeat split.
Qed.

(** X22. After an [unpause] whose client call returns, the next read of
    [client_state] asks the client, whatever the flag was before: its
    outcome is the outcome of [getMultirotorState]. *)
Theorem unpause_then_read_asks_client (h : Handler) (v : PyVal Obj) :
  fst (invoke (Client.simPause false) (_client h)) = Returns v ->
  outcome (client_state (final (unpause h)))
  = fst (invoke Client.getMultirotorState (_client (final (unpause h)))).
Proof.
  intros Hcall. run_method.
  destruct (invoke (Client.simPause false) (_client h)) as [r s1].
  simpl in *. subst r. simpl. step_call; reflexivity.
Qed.

End Handler.

Section FullHandler.
Context {Obj C : Type} {vendor : MultirotorClient Obj C}.
Context {more : MultirotorClientMore Obj C}.

Ltac run_full :=
  unfold __init__, SimulationHandler.__init__, setup,
    SimulationHandler.setup, SimulationHandler.initialize_physics_params,
    check_connection, client_camera, client_camera_depth, first_response,
    sys_exit, call_more, lift, pause, call, try_except, bind, emit, raise,
    ret, outcome, trace, final;
  simpl.

(** X23. When the connection is confirmed and the calls return,
    constructing the handler confirms the connection, enables API control,
    disarms and pauses the simulation, in this order and nothing else, and
    leaves the snapshot marked stale with nothing cached: the first read
    of [client_state] will ask the client. *)
Theorem construction_sequence (c c1 c2 c3 c4 : C) (v1 v2 v3 : PyVal Obj) :
  confirmConnection c = (Returns tt, c1) ->
  invoke (Client.enableApiControl true) c1 = (Returns v1, c2) ->
  invoke (Client.armDisarm false) c2 = (Returns v2, c3) ->
  invoke (Client.simPause true) c3 = (Returns v3, c4) ->
  __init__ c
  = (Returns tt,
     {| _new_state := true; _client := c4; _multirotor_state := VNone |},
     [ev_confirmConnection (Returns tt);
      ev_base (ev_call (Client.enableApiControl true) (Returns v1));
      ev_base (ev_call (Client.armDisarm false) (Returns v2));
      ev_base (ev_call (Client.simPause true) (Returns v3))]).
Proof.
  intros Hconfirm Henable Hdisarm Hpause. run_full.
  rewrite Hconfirm. simpl. rewrite Henable. simpl. rewrite Hdisarm. simpl.
  rewrite Hpause. reflexivity.
Qed.

(** X24. When confirming the connection raises an [Exception],
    constructing the handler logs a fatal line and leaves through
    [sys.exit()]: [SystemExit] is raised, and no control call has reached
    the client. *)
Theorem construction_exits_without_connection (c : C) (e : Exn) :
  fst (confirmConnection c) = Raises e ->
  is_Exception e = true ->
  outcome (__init__ c) = Raises (BaseExc "SystemExit")
  /\ trace (__init__ c)
     = [ev_confirmConnection (Raises e);
        ev_logfatal "Failed to connect to an airsim client."].
Proof.
  intros Hconfirm Hexc. run_full.
  destruct (confirmConnection c) as [r c1]. simpl in *. subst r. simpl.
  rewrite Hexc. split; reflexivity.
Qed.

(** X25. [check_connection] asks whether API control is enabled and
    enables it only when it is not: with control enabled it makes no
    further call. *)
Theorem check_connection_enables_when_disabled
    (h : AirsimHandler Obj C) (enabled : bool) :
  fst (isApiControlEnabled (_client h)) = Returns enabled ->
  trace (check_connection h)
  = ev_isApiControlEnabled (Returns enabled)
    :: (if enabled then []
        else [ev_loginfo "Re-enabling api control.";
              ev_base
                (ev_call (Client.enableApiControl true)
                   (fst (invoke (Client.enableApiControl true)
                           (snd (isApiControlEnabled (_client h))))))]).
Proof.
  intros Hask. run_full.
  destruct (isApiControlEnabled (_client h)) as [r c1]. simpl in *.
  subst r. simpl. destruct enabled; simpl; [reflexivity |].
  destruct (invoke (Client.enableApiControl true) c1) as [[v | e |] c2];
    reflexivity.
Qed.


End FullHandler.

Import SimClient Rig.

Lemma state_read_twice_asks_once_witness :
  outcome (client_state cached_handler) = Returns (VObj 0%nat)
  /\ client_state (final (client_state cached_handler))
     = (Returns (VObj 0%nat), final (client_state cached_handler), []).
Proof.
  split; [reflexivity |].
  apply (state_read_twice_asks_once cached_handler (VObj 0%nat)).
  reflexivity.
Defined.

Lemma failed_fetch_stays_stale_witness :
  _new_state broken_handler = true
  /\ outcome (client_state broken_handler)
     = Raises (PyException "RPCError")
  /\ _new_state (final (client_state broken_handler)) = true
  /\ _multirotor_state (final (client_state broken_handler))
     = _multirotor_state broken_handler.
Proof.
  split; [reflexivity |].
  apply (failed_fetch_stays_stale broken_handler (PyException "RPCError"));
    reflexivity.
Defined.

Lemma failed_unpause_marks_nothing_witness :
  fst (invoke (Client.simPause false) (_client broken_handler))
  = Raises (PyException "RPCError")
  /\ outcome (unpause broken_handler) = Returns tt.
Proof.
  split; [reflexivity |].
  apply (failed_unpause_marks_nothing broken_handler
           (PyException "RPCError"));
    reflexivity.
Defined.

Lemma failed_reset_stops_there_witness :
  fst (invoke Client.reset (_client broken_handler))
  = Raises (PyException "RPCError")
  /\ outcome (reset broken_handler) = Returns tt.
Proof.
  split; [reflexivity |].
  apply (failed_reset_stops_there broken_handler (PyException "RPCError"));
    reflexivity.
Defined.

Lemma state_after_command_is_cached_witness :
  _new_state cached_handler = false
  /\ client_state (final (run_command (Takeoff 2.5) cached_handler))
     = (Returns (VObj 0%nat),
        final (run_command (Takeoff 2.5) cached_handler), []).
Proof.
  split; [reflexivity |].
  apply (state_after_command_is_cached (Takeoff 2.5) cached_handler).
  reflexivity.
Defined.

Lemma world_method_failure_is_logged_witness :
  In (ev_call Client.reset (Raises (PyException "RPCError")))
     (trace (run_world_method Reset broken_handler))
  /\ outcome (run_world_method Reset broken_handler) = Returns tt.
Proof.
  split; [left; reflexivity |].
  apply (world_method_failure_is_logged Reset broken_handler Client.reset
           (PyException "RPCError")).
  - left. reflexivity.
  - reflexivity.
Defined.

Lemma unpause_then_read_asks_client_witness :
  _new_state cached_handler = false
  /\ outcome (client_state (final (unpause cached_handler)))
     = fst (invoke Client.getMultirotorState
              (_client (final (unpause cached_handler)))).
Proof.
  split; [reflexivity |].
  apply (unpause_then_read_asks_client cached_handler VNone).
  reflexivity.
Defined.

Lemma construction_sequence_witness :
  outcome (__init__ (simulator true false [])) = Returns tt
  /\ _new_state (final (__init__ (simulator true false []))) = true.
Proof.
  erewrite (construction_sequence (simulator true false [])); cycle 1.
  - reflexivity.
  - reflexivity.
  - reflexivity.
  - reflexivity.
  - split; reflexivity.
Defined.

Lemma construction_exits_without_connection_witness :
  fst (confirmConnection (simulator false false []))
  = Raises (PyException "RPCError")
  /\ outcome (__init__ (simulator false false []))
     = Raises (BaseExc "SystemExit").
Proof.
  split; [reflexivity |].
  apply (construction_exits_without_connection (simulator false false [])
           (PyException "RPCError"));
    reflexivity.
Defined.

Lemma check_connection_enables_when_disabled_witness :
  fst (isApiControlEnabled (_client (handler_on (simulator true false []))))
  = Returns false
  /\ trace (check_connection (handler_on (simulator true false [])))
     = [ev_isApiControlEnabled (Returns false);
        ev_loginfo "Re-enabling api control.";
        ev_base (ev_call (Client.enableApiControl true) (Returns VNone))].
Proof.
  split; [reflexivity |].
  exact (check_connection_enables_when_disabled
           (handler_on (simulator true false [])) false eq_refl).
Defined.


End HandlerFacts.

(** * A request confirmed by the callbacks *)

Module LiveFacts.
Import Py Py.Notations Mavros Telemetry Live.

Lemma state_after_message (earlier later : list Notification) (msg : State)
    (self : Cache) :
  none_on mavros_state later = true ->
  _state (deliver (earlier ++ on_state msg :: later) self) = Some msg.
Proof.
  intros Hlater. rewrite TelemetryFacts.deliver_app.
  change (deliver (on_state msg :: later) (deliver earlier self))
    with (deliver later (_state_cb msg (deliver earlier self))).
  pose proof (TelemetryFacts.deliver_other_topics mavros_state later
                (_state_cb msg (deliver earlier self)) Hlater) as Hread.
  unfold read, state in Hread. simpl in Hread.
  destruct (_state (deliver later (_state_cb msg (deliver earlier self))));
    simpl in Hread; [now injection Hread as -> | discriminate].
Qed.

(** X27. Arming (or disarming) is confirmed by the state message that
    follows the request: when the cached state differs from the request on
    entry, the service accepts, and among the messages delivered before
    the next read the last one on the state topic reports the requested
    value, [_set_arming_request] returns [True] after a single poll of the
    wait loop, whatever else arrived on the other topics. *)
Theorem arming_confirmed_by_next_state_message (fuel : nat)
    (arm_req : bool) (wait_time timeout : float) (self : Cache)
    (first earlier later : list Notification)
    (rest : list (list Notification)) (sc : Scripted.Script)
    (st msg : State) :
  _state (deliver first self) = Some st ->
  armed st = negb arm_req ->
  Scripted.arm_reply sc = Returns true ->
  none_on mavros_state later = true ->
  armed msg = arm_req ->
  outcome (_set_arming_request (S fuel) arm_req wait_time timeout
             {| cache := self;
                inbox := first :: (earlier ++ on_state msg :: later) :: rest;
                script := sc |}) = Returns true
  /\ trace (_set_arming_request (S fuel) arm_req wait_time timeout
              {| cache := self;
                 inbox := first :: (earlier ++ on_state msg :: later)
                          :: rest;
                 script := sc |})
     = [ev_now; ev_cond; ev_srv;
        ev_log LInfo "Service %s request successful!" "/mavros/cmd/arming";
        ev_cond].
Proof.
  intros Hentry Hdiffers Hreply Hlater Hmsg.
  assert (Hnext : _state (deliver (earlier ++ on_state msg :: later)
                            (deliver first self)) = Some msg)
    by now apply state_after_message.
  destruct sc as [n_now n_down n_state clock down states mode_r arm_r].
  simpl in Hreply. subst arm_r.
  unfold _set_arming_request, _set_service_request, try_except, bind, emit,
    ask, act, ret, outcome, trace, armed_is.
  cbn -[deliver]. rewrite Hentry, Hdiffers.
  replace (Bool.eqb (negb arm_req) arm_req) with false
    by now destruct arm_req.
  cbn -[deliver]. unfold bind, emit, ask, act, ret, armed_is.
  cbn -[deliver]. rewrite Hnext, Hmsg, Bool.eqb_reflx.
  split; reflexivity.
Qed.

Lemma arming_confirmed_by_next_state_message_witness :
  none_on mavros_state [on_pose Rig.a_pose] = true
  /\ outcome (_set_arming_request 1 true default_wait_time default_timeout
                {| cache := unset;
                   inbox := [[on_state Scripted.disarmed];
                             [on_gps Rig.a_fix;
                              on_state {| connected := true; armed := true;
                                          mode := "MANUAL" |};
                              on_pose Rig.a_pose]];
                   script := Scripted.never_armed |}) = Returns true.
Proof.
  split; [reflexivity |].
  apply (arming_confirmed_by_next_state_message 0 true default_wait_time
           default_timeout unset [on_state Scripted.disarmed]
           [on_gps Rig.a_fix] [on_pose Rig.a_pose] []
           Scripted.never_armed Scripted.disarmed
           {| connected := true; armed := true; mode := "MANUAL" |});
    reflexivity.
Defined.

End LiveFacts.
